(** * ds_automater: the project scaffolder [main.py], its model and its properties

    The program creates (or tears down) a data-science project directory.
    Everything it does is a sequence of path computations, filesystem calls,
    spawned processes and file writes.  The model below follows [main.py]
    function by function over

    - path strings, with [os.path.join] / [os.path.abspath] of the running
      flavour ([posixpath] or [ntpath] without drive letters),
    - a filesystem tree ([node]) with the current directory and the log of
      spawned commands ([state]),
    - a state-and-exception monad [M] for Python's control flow,
    - a [host] record for what the code cannot decide: [os.name],
      [sys.executable] and the effect of a child process on the filesystem.

    Symbolic links, permissions and the logger are outside the model.
    Properties of runs are stated and proved with triples [hoare P m Q E]
    over [M]. *)

From stdpp Require Import base option list gmap strings fin_maps.
From Stdlib Require Import String Ascii Permutation.

#[local] Set Warnings "-register-all".


(* ===================================================================== *)
(** ** Path strings *)
(* ===================================================================== *)

(** [os.path] is [posixpath] when [os.name == 'posix'] and [ntpath] when it
    is ['nt'].  The two differ here in the separator they write and in the
    separators they read. *)
Inductive flavour := Posix | Nt.

Definition sep (fl : flavour) : ascii :=
  match fl with Posix => "/"%char | Nt => "\"%char end.

Definition is_sep (fl : flavour) (a : ascii) : bool :=
  match fl with
  | Posix => Ascii.eqb a "/"
  | Nt => Ascii.eqb a "\" || Ascii.eqb a "/"
  end.

(** [s.startswith(sep)] *)
Definition startswith_sep (fl : flavour) (s : string) : bool :=
  match s with
  | String a _ => is_sep fl a
  | EmptyString => false
  end.

(** [s.endswith(sep)] *)
Fixpoint endswith_sep (fl : flavour) (s : string) : bool :=
  match s with
  | EmptyString => false
  | String a EmptyString => is_sep fl a
  | String _ s' => endswith_sep fl s'
  end.

(** [s.split(sep)]: the empty string splits into one empty component. *)
Fixpoint split_sep (fl : flavour) (s : string) : list string :=
  match s with
  | EmptyString => [EmptyString]
  | String a s' =>
      if is_sep fl a then EmptyString :: split_sep fl s'
      else match split_sep fl s' with
           | h :: t => String a h :: t
           | [] => [String a EmptyString]
           end
  end.

(** A component is free of separators. *)
Fixpoint has_sep (fl : flavour) (s : string) : bool :=
  match s with
  | EmptyString => false
  | String a s' => is_sep fl a || has_sep fl s'
  end.

(** [os.path.join(a, b)]: an absolute [b] discards [a]; otherwise one
    separator is put between the two unless [a] is empty or ends in one. *)
Definition os_path_join (fl : flavour) (a b : string) : string :=
  if startswith_sep fl b then b
  else if (a =? "")%string || endswith_sep fl a then a +:+ b
  else a +:+ String (sep fl) b.

(** One round of the loop of [normpath] on an absolute path: empty and
    ["."] components are skipped, [".."] drops the last component kept so
    far (and is itself dropped at the root). *)
Definition norm_step (acc : list string) (comp : string) : list string :=
  if (comp =? "")%string || (comp =? ".")%string then acc
  else if (comp =? "..")%string then removelast acc
  else acc ++ [comp].

Definition normalize (comps : list string) : list string :=
  fold_left norm_step comps [].

(** The absolute path string of a list of components. *)
Definition render (fl : flavour) (p : list string) : string :=
  String (sep fl) (String.concat (String (sep fl) EmptyString) p).

(** The components a path string denotes for a process whose current
    directory is [cwd]: what [abspath] computes, before it is written back
    as a string.  The operating system resolves the paths of this program
    to the same components, as there are no symbolic links in the model. *)
Definition resolve (fl : flavour) (cwd s : string) : list string :=
  normalize (split_sep fl (if startswith_sep fl s then s else os_path_join fl cwd s)).

(** [os.path.abspath(s)]: the path is joined to the current directory
    unless absolute, then normalised.  (POSIX keeps a leading double slash
    apart; the model writes one.) *)
Definition os_path_abspath (fl : flavour) (cwd s : string) : string :=
  render fl (resolve fl cwd s).

(** A name that stands for itself as one path component. *)
Definition simple_component (fl : flavour) (c : string) : bool :=
  negb (has_sep fl c)
  && negb ((c =? "")%string || (c =? ".")%string || (c =? "..")%string).

(* ===================================================================== *)
(** ** The filesystem *)
(* ===================================================================== *)

(** The cells of a notebook document as [nbformat.v4] builds them. *)
Inductive cell_type := Markdown | Code.

Record cell := { cell_kind : cell_type; cell_source : string }.

Record notebook := { nb_cells : list cell }.

(** What a regular file holds: text, or a notebook as [nbformat.write]
    serialises it. *)
Inductive content :=
  | Text (s : string)
  | NotebookDocument (nb : notebook).

Inductive node :=
  | File (c : content)
  | Dir (entries : gmap string node).

Fixpoint lookup_path (p : list string) (n : node) : option node :=
  match p with
  | [] => Some n
  | k :: p' =>
      match n with
      | Dir es => es !! k ≫= lookup_path p'
      | File _ => None
      end
  end.

(** Replace (or with [None] remove) the entry at [p].  Nothing changes when
    the parent of [p] is not a directory; the root itself is never
    replaced. *)
Fixpoint set_path (p : list string) (v : option node) (n : node) : node :=
  match p, n with
  | k :: p', Dir es =>
      Dir (partial_alter
             (fun o => match p' with [] => v | _ => set_path p' v <$> o end) k es)
  | _, _ => n
  end.

(* ===================================================================== *)
(** ** Python values, exceptions and the monad of the program *)
(* ===================================================================== *)

Inductive exn :=
  | ArgumentTypeError (msg : string)   (* argparse.ArgumentTypeError *)
  | FileNotFoundError
  | NotADirectoryError
  | IsADirectoryError
  | FileExistsError
  | OSError (msg : string)
  | SystemExit (code : nat).

(** The values the arguments of [main] and the results of the argument
    checkers range over. *)
Inductive pyval :=
  | PyNone
  | PyBool (b : bool)
  | PyStr (s : string)
  | PyExc (e : exn).

(** Truth value testing: [None], [False] and [''] are false. *)
Definition truthy (v : pyval) : bool :=
  match v with
  | PyNone => false
  | PyBool b => b
  | PyStr s => negb (s =? "")%string
  | PyExc _ => true
  end.

(** [v == s] for a string literal [s] *)
Definition py_eq_str (v : pyval) (s : string) : bool :=
  match v with
  | PyStr s' => (s' =? s)%string
  | _ => false
  end.

(** The argument of [subprocess.run]: an argument vector, or a command line
    for the shell ([shell=True]). *)
Inductive command :=
  | Argv (args : list string)
  | Shell (line : string).

Record state := {
  fs : node;                 (* the filesystem, from its root *)
  cwd : string;              (* os.getcwd() *)
  spawned : list command     (* the commands run so far, oldest first *)
}.

Inductive outcome (A : Type) :=
  | Returned (a : A)
  | Raised (e : exn).
Arguments Returned {A} a.
Arguments Raised {A} e.

(** A computation runs from a state to a state and either returns a value
    or raises; what was done before a raise stays done. *)
Definition M (A : Type) : Type := state -> state * outcome A.

Definition ret {A : Type} (a : A) : M A := fun st => (st, Returned a).

Definition bind {A B : Type} (m : M A) (k : A -> M B) : M B := fun st =>
  match m st with
  | (st', Returned a) => k a st'
  | (st', Raised e) => (st', Raised e)
  end.

Declare Scope py_scope.
Delimit Scope py_scope with py.
Notation "x <- m ;; k" := (bind m (fun x => k))
  (at level 100, m at next level, right associativity) : py_scope.
Notation "m ;; k" := (bind m (fun _ => k))
  (at level 100, right associativity) : py_scope.
#[local] Open Scope py_scope.

Definition raise {A : Type} (e : exn) : M A := fun st => (st, Raised e).

Definition getcwd : M string := fun st => (st, Returned (cwd st)).

Definition set_fs (st : state) (n : node) : state :=
  {| fs := n; cwd := cwd st; spawned := spawned st |}.

(** [for x in l: body(x)] *)
Fixpoint for_each {A : Type} (l : list A) (body : A -> M unit) : M unit :=
  match l with
  | [] => ret tt
  | x :: l' => body x ;; for_each l' body
  end.

(* ===================================================================== *)
(** ** The calls into [os], [shutil], [open] and [subprocess] *)
(* ===================================================================== *)

(** What the program leaves to its host. *)
Record host := {
  os_name : string;                    (* os.name *)
  sys_executable : string;             (* sys.executable *)
  (* what a child process started in [cwd] does to the filesystem, or the
     exception of [subprocess.run] when it cannot be started; the exit
     status is not looked at *)
  child : command -> string -> node -> node * outcome unit
}.

Definition flavour_of (h : host) : flavour :=
  if (os_name h =? "nt")%string then Nt else Posix.

Section Os.
Variable fl : flavour.

(** [os.path.exists(s)] *)
Definition os_path_exists (s : string) : M bool := fun st =>
  (st, Returned match lookup_path (resolve fl (cwd st) s) (fs st) with
                | Some _ => true
                | None => false
                end).

(** [os.mkdir(s)] *)
Definition os_mkdir (s : string) : M unit := fun st =>
  let p := resolve fl (cwd st) s in
  match lookup_path p (fs st) with
  | Some _ => (st, Raised FileExistsError)
  | None =>
      match lookup_path (removelast p) (fs st) with
      | Some (Dir _) => (set_fs st (set_path p (Some (Dir ∅)) (fs st)), Returned tt)
      | Some (File _) => (st, Raised NotADirectoryError)
      | None => (st, Raised FileNotFoundError)
      end
  end.

(** [os.chdir(s)] *)
Definition os_chdir (s : string) : M unit := fun st =>
  let p := resolve fl (cwd st) s in
  match lookup_path p (fs st) with
  | Some (Dir _) =>
      ({| fs := fs st; cwd := render fl p; spawned := spawned st |}, Returned tt)
  | Some (File _) => (st, Raised NotADirectoryError)
  | None => (st, Raised FileNotFoundError)
  end.

(** [shutil.rmtree(s)]: the directory goes with all it holds.  At the
    root the contents go and the call fails on the root itself. *)
Definition shutil_rmtree (s : string) : M unit := fun st =>
  let p := resolve fl (cwd st) s in
  match lookup_path p (fs st) with
  | Some (Dir _) =>
      match p with
      | [] => (set_fs st (Dir ∅), Raised (OSError "Device or resource busy"))
      | _ => (set_fs st (set_path p None (fs st)), Returned tt)
      end
  | Some (File _) => (st, Raised NotADirectoryError)
  | None => (st, Raised FileNotFoundError)
  end.

(** [os.remove(s)]: regular files only. *)
Definition os_remove (s : string) : M unit := fun st =>
  let p := resolve fl (cwd st) s in
  match lookup_path p (fs st) with
  | Some (File _) => (set_fs st (set_path p None (fs st)), Returned tt)
  | Some (Dir _) => (st, Raised IsADirectoryError)
  | None => (st, Raised FileNotFoundError)
  end.

(** [os.rmdir(s)]: empty directories only, and never the root. *)
Definition os_rmdir (s : string) : M unit := fun st =>
  let p := resolve fl (cwd st) s in
  match lookup_path p (fs st) with
  | Some (Dir es) =>
      if decide (size es = 0) then
        match p with
        | [] => (st, Raised (OSError "Device or resource busy"))
        | _ => (set_fs st (set_path p None (fs st)), Returned tt)
        end
      else (st, Raised (OSError "Directory not empty"))
  | Some (File _) => (st, Raised NotADirectoryError)
  | None => (st, Raised FileNotFoundError)
  end.

(** [with open(s, 'w') as file: file.write(c)]: the file is created or
    truncated, then holds [c]. *)
Definition open_w (s : string) (c : content) : M unit := fun st =>
  let p := resolve fl (cwd st) s in
  match lookup_path p (fs st) with
  | Some (Dir _) => (st, Raised IsADirectoryError)
  | _ =>
      match lookup_path (removelast p) (fs st) with
      | Some (Dir _) => (set_fs st (set_path p (Some (File c)) (fs st)), Returned tt)
      | Some (File _) => (st, Raised NotADirectoryError)
      | None => (st, Raised FileNotFoundError)
      end
  end.
End Os.

(** [subprocess.run(cmd)]: the command is logged, the child works on the
    filesystem from the current directory of the parent, whose own state
    ([cwd]) no child can change. *)
Definition subprocess_run (h : host) (cmd : command) : M unit := fun st =>
  let '(n, r) := child h cmd (cwd st) (fs st) in
  ({| fs := n; cwd := cwd st; spawned := spawned st ++ [cmd] |}, r).

(* ===================================================================== *)
(** ** [main.py] *)
(* ===================================================================== *)

Definition newline : string := String "010"%char EmptyString.

Definition PACKAGES : list string :=
  ["numpy"; "pandas";
   "openpyxl";
   "scikit-learn";
   "matplotlib"; "seaborn";
   "notebook"].

Definition ignore_file_types : list string :=
  ["*.txt"; "*.csv"; "*.xlsx"; "*.xls"; "*.ipynb_checkpoints"; "*.vscode"; ".git"].

(** [nbformat.v4]: a new notebook has no cells; a cell is built from its
    source. *)
Definition new_notebook : notebook := {| nb_cells := [] |}.

Definition new_markdown_cell (source : string) : cell :=
  {| cell_kind := Markdown; cell_source := source |}.

Definition new_code_cell (source : string) : cell :=
  {| cell_kind := Code; cell_source := source |}.

(** [nb['cells'].extend(cells)] *)
Definition cells_extend (nb : notebook) (cells : list cell) : notebook :=
  {| nb_cells := nb_cells nb ++ cells |}.

(** [any(l)] *)
Definition any (l : list bool) : bool := existsb (fun b => b) l.

(** [letter in l] for a one-character string [letter] *)
Definition letter_in (letter : ascii) (l : list ascii) : bool :=
  existsb (Ascii.eqb letter) l.

Definition bad_syntax : list ascii :=
  [","; "."; "/"; "\"; "010"; "009"; "?"]%char.

(** [validate_name]: on a bad character the error object is the value of a
    [return] statement; otherwise the function falls off its end and
    returns [None]. *)
Definition validate_name (fname : string) : outcome pyval :=
  let res := any (map (fun letter => letter_in letter bad_syntax)
                      (list_ascii_of_string fname)) in
  if res then Returned (PyExc (ArgumentTypeError "Invalid folder name supplied."))
  else Returned PyNone.

Definition folders_to_remove : list string := [".venv"; "data"; ".git"].

Definition files_to_remove : list string :=
  ["solution.py"; "solution.ipynb"; "requirements.txt"; ".gitignore"; ".DS_Store"].

(** The 23 blanks that start the continuation lines of the POSIX command. *)
Definition continuation_indent : string := "                       ".

Section Program.
Variable h : host.

Let fl : flavour := flavour_of h.

Definition verify_directory (file_path : string) : M string :=
  b <- os_path_exists fl file_path ;;
  if b then ret file_path
  else raise (ArgumentTypeError "Invalid file path supplied.").

Definition safe_delete (file_path : string) : M unit :=
  for_each folders_to_remove (fun folder =>
        b <- os_path_exists fl (os_path_join fl file_path folder) ;;
        if b then shutil_rmtree fl (os_path_join fl file_path folder)
        else ret tt) ;;
  for_each files_to_remove (fun file =>
        b <- os_path_exists fl (os_path_join fl file_path file) ;;
        if b then os_remove fl (os_path_join fl file_path file)
        else ret tt) ;;
  os_rmdir fl file_path.

(** [main], "Environment Setup": the project directory, the virtual
    environment, the packages and the repository (lines 95 to 125). *)
Definition main_environment_setup (full_fpath : string) (git : pyval) : M unit :=
  b <- os_path_exists fl full_fpath ;;
  (if negb b then os_mkdir fl full_fpath else ret tt) ;;
  os_chdir fl full_fpath ;;
  b <- os_path_exists fl full_fpath ;;
  (if b then subprocess_run h (Argv [sys_executable h; "-m"; "venv"; ".venv"])
   else ret tt) ;;
  let venv_path := os_path_join fl full_fpath ".venv" in
  (if (os_name h =? "nt")%string then
     let activate_script :=
       os_path_join fl (os_path_join fl venv_path "Scripts") "activate" in
     subprocess_run h
       (Shell (activate_script +:+ " && pip install  "
               +:+ String.concat " " PACKAGES))
   else if (os_name h =? "posix")%string then
     let activate_script :=
       os_path_join fl (os_path_join fl venv_path "bin") "activate" in
     subprocess_run h
       (Shell ("source '" +:+ activate_script +:+ "' && "
               +:+ continuation_indent
               +:+ "python -m pip install --upgrade pip && "
               +:+ continuation_indent
               +:+ "pip install " +:+ String.concat " " PACKAGES))
   else ret tt) ;;
  if truthy git then subprocess_run h (Argv ["git"; "init"]) else ret tt.

(** [main], "File creations": the data folder, the two text files and
    the stub (lines 126 to 155). *)
Definition main_file_creations (project_type : pyval) : M unit :=
  b <- os_path_exists fl "./data" ;;
  (if negb b then os_mkdir fl "./data" else ret tt) ;;
  let requirements_text := String.concat newline PACKAGES in
  open_w fl "requirements.txt" (Text requirements_text) ;;
  open_w fl ".gitignore" (Text (String.concat newline ignore_file_types)) ;;
  if py_eq_str project_type "jupyter-notebook" then
    let nb := new_notebook in
    let cells :=
      [ new_markdown_cell "# Solution Notebook";
        new_code_cell ("import numpy as np" +:+ newline +:+ "import pandas as pd") ] in
    let nb := cells_extend nb cells in
    open_w fl "solution.ipynb" (NotebookDocument nb)
  else if py_eq_str project_type "python" then
    open_w fl "solution.py"
      (Text ("import pandas as pd" +:+ newline +:+ "import numpy as np"))
  else ret tt.

(** [main] from its line 92 on: the create path. *)
Definition main_create (full_fpath : string) (project_type git : pyval) : M unit :=
  main_environment_setup full_fpath git ;;
  main_file_creations project_type.

Definition main (file_path folder_name : string)
    (project_type git cleanup verbose : pyval) : M unit :=
  wd <- getcwd ;;
  let full_fpath := os_path_abspath fl wd (os_path_join fl file_path folder_name) in
  (* [cleanup and verify_directory(full_fpath)] *)
  remove <- (if truthy cleanup then
              v <- verify_directory full_fpath ;; ret (truthy (PyStr v))
            else ret false) ;;
  if remove then safe_delete full_fpath
  else main_create full_fpath project_type git.

(** *** The command line *)

(** The values given on the command line, [None] for an option left
    out. *)
Record cli := {
  cli_file_path : option string;
  cli_name : option string;
  cli_project_type : option string;
  cli_verbose : option string;
  cli_cleanup : option string;
  cli_git : option string
}.

Record namespace := {
  ns_file_path : string;
  ns_name : string;
  ns_project_type : pyval;
  ns_verbose : pyval;
  ns_cleanup : pyval;
  ns_git : pyval
}.

(** [argparse] turns the [ArgumentTypeError] of a [type=] checker into
    its own error exit (status 2). *)
Definition argparse_type {A : Type} (check : string -> M A) (s : string) : M A :=
  fun st =>
    match check s st with
    | (st', Raised (ArgumentTypeError _)) => (st', Raised (SystemExit 2))
    | r => r
    end.

Definition project_type_choices : list string := ["jupyter-notebook"; "python"].

(** [parser.parse_args()] for the six [add_argument] calls: [--file_path]
    goes through [verify_directory], [--name] is stored as it is given,
    [--project_type] must be one of its choices when present. *)
Definition parse_args (a : cli) : M namespace :=
  match cli_file_path a, cli_name a with
  | Some f, Some n =>
      f' <- argparse_type verify_directory f ;;
      p <- match cli_project_type a with
          | None => ret PyNone
          | Some t =>
              if existsb (String.eqb t) project_type_choices then ret (PyStr t)
              else raise (SystemExit 2)
          end ;;
      ret {| ns_file_path := f';
              ns_name := n;
              ns_project_type := p;
              ns_verbose := from_option PyStr (PyBool true) (cli_verbose a);
              ns_cleanup := from_option PyStr (PyBool false) (cli_cleanup a);
              ns_git := from_option (fun s => PyBool (negb (s =? "")%string))
                                    PyNone (cli_git a) |}
  | _, _ => raise (SystemExit 2)
  end.

(** The [if __name__ == '__main__'] block. *)
Definition program (a : cli) : M unit :=
  args <- parse_args a ;;
  main (ns_file_path args) (ns_name args) (ns_project_type args)
       (ns_git args) (ns_cleanup args) (ns_verbose args).
End Program.

(** A new process starts in the directory of the shell that runs it, on the
    filesystem the processes before it have left. *)
Definition start (n : node) (wd : string) : state :=
  {| fs := n; cwd := wd; spawned := [] |}.

(* ===================================================================== *)
(** ** Vocabulary of the specifications *)
(* ===================================================================== *)

(** [hoare P m Q E]: run from a state in [P], [m] ends in [Q] when it
    returns and in [E] when it raises.  [M] is a total function, so one of
    the two always happens. *)
Definition hoare {A : Type} (P : state -> Prop) (m : M A)
    (Q : A -> state -> Prop) (E : exn -> state -> Prop) : Prop :=
  forall st, P st ->
    match m st with
    | (st', Returned a) => Q a st'
    | (st', Raised e) => E e st'
    end.

(** The names [safe_delete] removes. *)
Definition allow_list : list string := folders_to_remove ++ files_to_remove.

Definition is_dir (x : node) : bool :=
  match x with Dir _ => true | File _ => false end.

(** An entry [safe_delete] can remove: a listed folder that is a directory
    or a listed file that is a regular file. *)
Definition scaffold_entry (k : string) (x : node) : Prop :=
  (k ∈ folders_to_remove /\ is_dir x = true)
  \/ (k ∈ files_to_remove /\ is_dir x = false).

Definition scaffold_only (es : gmap string node) : Prop :=
  forall k x, es !! k = Some x -> scaffold_entry k x.

(** The directory [main] works on: what [full_fpath] names. *)
Definition project_dir (h : host) (wd file_path folder_name : string) : list string :=
  resolve (flavour_of h) wd (os_path_join (flavour_of h) file_path folder_name).

(** The commands of the create path for a project at [full_fpath]: the
    environment tool, the installer line of the running OS family (none on
    any other), and the version-control tool. *)
Definition venv_command (h : host) : command :=
  Argv [sys_executable h; "-m"; "venv"; ".venv"].

Definition install_commands (h : host) (full_fpath : string) : list command :=
  let fl := flavour_of h in
  let venv_path := os_path_join fl full_fpath ".venv" in
  if (os_name h =? "nt")%string then
    [Shell (os_path_join fl (os_path_join fl venv_path "Scripts") "activate"
            +:+ " && pip install  numpy pandas openpyxl scikit-learn matplotlib seaborn notebook")]
  else if (os_name h =? "posix")%string then
    [Shell ("source '"
            +:+ os_path_join fl (os_path_join fl venv_path "bin") "activate"
            +:+ "' &&                        python -m pip install --upgrade pip &&                        pip install numpy pandas openpyxl scikit-learn matplotlib seaborn notebook")]
  else [].

Definition git_command : command := Argv ["git"; "init"].

Definition create_commands (h : host) (full_fpath : string) (git : pyval) : list command :=
  venv_command h :: install_commands h full_fpath
  ++ (if truthy git then [git_command] else []).

Definition absent_or_dir (o : option node) : Prop :=
  match o with Some x => is_dir x = true | None => True end.

(** The tools of the create path keep to their own entries: run in the
    project directory [d], each leaves it a directory in which only
    [.venv] and [.git] may have changed, and what it has put there is a
    directory. *)
Definition tools_confined (h : host) (d : list string) (git : pyval) : Prop :=
  forall cmd n es,
    cmd ∈ create_commands h (render (flavour_of h) d) git ->
    lookup_path d n = Some (Dir es) ->
    exists es',
      lookup_path d (child h cmd (render (flavour_of h) d) n).1 = Some (Dir es')
      /\ forall k, es' !! k = es !! k
                   \/ ((k = ".venv" \/ k = ".git") /\ absent_or_dir (es' !! k)).

(** The process is in the project directory [d], which holds [es], and has
    spawned [sp]. *)
Definition in_project (h : host) (d : list string) (sp : list command)
    (es : gmap string node) (st : state) : Prop :=
  cwd st = render (flavour_of h) d
  /\ spawned st = sp
  /\ lookup_path d (fs st) = Some (Dir es).

(** The entries of the project directory after "File creations", from the
    entries [es] before it. *)
Definition with_data (es : gmap string node) : gmap string node :=
  match es !! "data" with
  | Some _ => es
  | None => <["data" := Dir ∅]> es
  end.

Definition requirements_file : node :=
  File (Text (String.concat newline PACKAGES)).

Definition gitignore_file : node :=
  File (Text (String.concat newline ignore_file_types)).

Definition notebook_stub : node :=
  File (NotebookDocument
          (cells_extend new_notebook
             [ new_markdown_cell "# Solution Notebook";
               new_code_cell ("import numpy as np" +:+ newline +:+ "import pandas as pd") ])).

Definition script_stub : node :=
  File (Text ("import pandas as pd" +:+ newline +:+ "import numpy as np")).

Definition with_stub (project_type : pyval) (es : gmap string node) : gmap string node :=
  if py_eq_str project_type "jupyter-notebook" then <["solution.ipynb" := notebook_stub]> es
  else if py_eq_str project_type "python" then <["solution.py" := script_stub]> es
  else es.

Definition created_entries (project_type : pyval) (es : gmap string node)
    : gmap string node :=
  with_stub project_type
    (<[".gitignore" := gitignore_file]>
       (<["requirements.txt" := requirements_file]> (with_data es))).

(** A requirement with a version specifier has one of these characters. *)
Definition pinned (requirement : string) : bool :=
  any (map (fun a => letter_in a ["="; "<"; ">"; "~"; "!"; "@"]%char)
           (list_ascii_of_string requirement)).

(** The sources of the code cells of a notebook. *)
Definition code_sources (nb : notebook) : list string :=
  map cell_source
      (List.filter (fun c => match cell_kind c with Code => true | Markdown => false end)
                   (nb_cells nb)).

(** What the command line can make of [--project_type]. *)
Definition parsed_project_type (v : pyval) : Prop :=
  v = PyNone \/ v = PyStr "jupyter-notebook" \/ v = PyStr "python".

(** A request the argument checks are meant to let through: the base
    directory exists and the name has none of the characters of
    [bad_syntax]. *)
Definition valid_request (h : host) (n : node) (wd file_path folder_name : string) : Prop :=
  is_Some (lookup_path (resolve (flavour_of h) wd file_path) n)
  /\ validate_name folder_name = Returned PyNone.

(** *** A host and two filesystems to run the program on *)

(** The environment tool makes [.venv] with its configuration file, the
    version-control tool makes an empty [.git], the installer works inside
    [.venv] only, which the model does not look into. *)
Definition example_host (name : string) : host :=
  let fl := if (name =? "nt")%string then Nt else Posix in
  {| os_name := name;
     sys_executable := "python3";
     child := fun cmd wd n =>
       match cmd with
       | Argv [_; "-m"; "venv"; dir] =>
           (set_path (resolve fl wd dir)
                     (Some (Dir {[ "pyvenv.cfg" := File (Text "") ]})) n,
            Returned tt)
       | Argv ["git"; "init"] =>
           (set_path (resolve fl wd ".git") (Some (Dir ∅)) n, Returned tt)
       | _ => (n, Returned tt)
       end |}.

Definition example_fs : node :=
  Dir {[ "tmp" := Dir ∅; "home" := Dir ∅ ]}.

(** The project directory is there already and holds a file of the
    user. *)
Definition example_fs_notes : node :=
  Dir {[ "tmp" := Dir {[ "demo" := Dir {[ "notes.md" := File (Text "keep") ]} ]};
         "home" := Dir ∅ ]}.

(** A create run of the example host for [/tmp/demo], started in [/home]. *)
Definition example_create (project_type git : pyval) (n : node) : state * outcome unit :=
  main (example_host "posix") "/tmp" "demo" project_type git (PyBool false)
       (PyBool true) (start n "/home").

(** *** Two statements of the specification as they are written *)

(** Create, then cleanup with the same arguments: no directory and no
    error are left. *)
Definition roundtrip_as_stated : Prop :=
  forall (h : host) (file_path folder_name : string)
         (project_type git verbose : pyval) (n : node) (wd : string) (st1 : state),
    let d := project_dir h wd file_path folder_name in
    valid_request h n wd file_path folder_name ->
    parsed_project_type project_type ->
    tools_confined h d git ->
    main h file_path folder_name project_type git (PyBool false) verbose (start n wd)
    = (st1, Returned tt) ->
    exists st2,
      main h file_path folder_name project_type git (PyBool true) verbose
           (start (fs st1) wd)
      = (st2, Returned tt)
      /\ lookup_path d (fs st2) = None.

(** After a create run the project directory holds exactly one of the two
    stubs. *)
Definition one_stub_as_stated : Prop :=
  forall (h : host) (file_path folder_name : string)
         (project_type git verbose : pyval) (n : node) (wd : string) (st' : state),
    let d := project_dir h wd file_path folder_name in
    valid_request h n wd file_path folder_name ->
    parsed_project_type project_type ->
    tools_confined h d git ->
    main h file_path folder_name project_type git (PyBool false) verbose (start n wd)
    = (st', Returned tt) ->
    exists es,
      lookup_path d (fs st') = Some (Dir es)
      /\ (is_Some (es !! "solution.ipynb") <-> ~ is_Some (es !! "solution.py")).

(** [s.split('\n')] *)
Fixpoint lines (s : string) : list string :=
  match s with
  | EmptyString => [EmptyString]
  | String a s' =>
      if Ascii.eqb a "010" then EmptyString :: lines s'
      else match lines s' with
           | l :: ls => String a l :: ls
           | [] => [String a EmptyString]
           end
  end.

(** *** Further vocabulary *)

(** Two paths part ways: after a common start each goes on with a name of
    its own, so neither lies under the other. *)
Definition apart (p q : list string) : Prop :=
  exists c a b r r', p = c ++ a :: r /\ q = c ++ b :: r' /\ a <> b.





(** The project path cannot be made a directory: a regular file is in its
    place, or it is missing and so is a directory to hold it. *)
Definition blocked (d : list string) (n : node) : Prop :=
  (exists c, lookup_path d n = Some (File c))
  \/ (lookup_path d n = None
      /\ forall es, lookup_path (removelast d) n <> Some (Dir es)).

(** A command line for the example host: [/tmp] and [demo], a script, and
    the two flags as given. *)
Definition example_cli (cleanup git : option string) : cli :=
  {| cli_file_path := Some "/tmp"; cli_name := Some "demo";
     cli_project_type := Some "python"; cli_verbose := None;
     cli_cleanup := cleanup; cli_git := git |}.

(** A regular file is where the project directory would be. *)
Definition example_fs_file : node :=
  Dir {[ "tmp" := Dir {[ "demo" := File (Text "") ]}; "home" := Dir ∅ ]}.

(* ===================================================================== *)
(** ** Properties of path strings *)
(* ===================================================================== *)

Section PathFacts.
Variable fl : flavour.

#[local] Abbreviation nosep := (fun c => has_sep fl c = false).
#[local] Abbreviation simple := (fun c => simple_component fl c = true).

Lemma is_sep_sep : is_sep fl (sep fl) = true.
Proof. by destruct fl. Qed.

Lemma append_cons (x : ascii) (a b : string) : String x a +:+ b = String x (a +:+ b).
Proof. reflexivity. Qed.

Lemma append_nil (b : string) : EmptyString +:+ b = b.
Proof. reflexivity. Qed.

Lemma append_assoc (a b c : string) : (a +:+ b) +:+ c = a +:+ (b +:+ c).
Proof.
  induction a as [|x a IH]; [done |]. rewrite !append_cons. by f_equal.
Qed.

Lemma split_sep_cons (s : string) : exists c l, split_sep fl s = c :: l.
Proof.
  induction s as [|a s (c & l & IH)]; simpl; [by eauto |].
  destruct (is_sep fl a); [by eauto |]. rewrite IH. by eauto.
Qed.

(** Splitting distributes over a separator. *)
Lemma split_sep_app (a b : string) (c : ascii) :
  is_sep fl c = true ->
  split_sep fl (a +:+ String c b) = split_sep fl a ++ split_sep fl b.
Proof.
  intros Hc. induction a as [|x a IH]; [rewrite append_nil | rewrite append_cons]; simpl.
  - by rewrite Hc.
  - destruct (is_sep fl x); [by rewrite IH |].
    rewrite IH. destruct (split_sep_cons a) as (h & t & ->). done.
Qed.

Lemma split_sep_nosep (c : string) : has_sep fl c = false -> split_sep fl c = [c].
Proof.
  induction c as [|a c IH]; simpl; [done |].
  intros [Ha Hc]%orb_false_elim. rewrite Ha, (IH Hc). done.
Qed.

Lemma split_sep_Forall (s : string) : Forall nosep (split_sep fl s).
Proof.
  induction s as [|a s IH]; simpl.
  - by constructor.
  - destruct (is_sep fl a) eqn:Ha; [by constructor |].
    destruct (split_sep fl s) as [|c l].
    + constructor; [simpl; by rewrite Ha | done].
    + inversion IH; subst. constructor; [simpl | done].
      rewrite Ha. done.
Qed.

Lemma split_concat (x : string) (l : list string) :
  Forall nosep (x :: l) ->
  split_sep fl (String.concat (String (sep fl) EmptyString) (x :: l)) = x :: l.
Proof.
  revert x. induction l as [|y l IH]; intros x Hx; inversion Hx; subst.
  - simpl. by apply split_sep_nosep.
  - change (String.concat (String (sep fl) EmptyString) (x :: y :: l))
      with (x +:+ String (sep fl) (String.concat (String (sep fl) EmptyString) (y :: l))).
    rewrite split_sep_app by apply is_sep_sep.
    rewrite split_sep_nosep by done. rewrite IH by done. done.
Qed.

Lemma simple_nosep (c : string) : simple_component fl c = true -> has_sep fl c = false.
Proof. unfold simple_component. intros [H _]%andb_true_iff. by apply negb_true_iff. Qed.

Lemma norm_step_simple (acc : list string) (c : string) :
  simple_component fl c = true -> norm_step acc c = acc ++ [c].
Proof.
  unfold simple_component, norm_step.
  intros [_ H]%andb_true_iff. apply negb_true_iff in H.
  apply orb_false_elim in H as [[H1 H2]%orb_false_elim H3].
  by rewrite H1, H2, H3.
Qed.

Lemma fold_norm_step_simple (l acc : list string) :
  Forall simple l -> fold_left norm_step l acc = acc ++ l.
Proof.
  revert acc. induction l as [|c l IH]; intros acc Hl; simpl.
  - by rewrite app_nil_r.
  - inversion Hl; subst. rewrite norm_step_simple by done.
    rewrite IH by done. by rewrite <- app_assoc.
Qed.

Lemma Forall_removelast {A : Type} (P : A -> Prop) (l : list A) :
  Forall P l -> Forall P (removelast l).
Proof.
  induction 1 as [|x l Hx Hl IH]; simpl; [done |].
  destruct l; [done | by constructor].
Qed.

Lemma norm_step_Forall (acc : list string) (c : string) :
  Forall simple acc -> has_sep fl c = false -> Forall simple (norm_step acc c).
Proof.
  intros Hacc Hc. unfold norm_step.
  destruct ((c =? "")%string || (c =? ".")%string) eqn:H1; [done |].
  destruct (c =? "..")%string eqn:H2; [by apply Forall_removelast |].
  apply Forall_app; split; [done |]. constructor; [| done].
  unfold simple_component. rewrite Hc. simpl.
  apply orb_false_elim in H1 as [-> ->]. by rewrite H2.
Qed.

Lemma fold_norm_step_Forall (l acc : list string) :
  Forall simple acc -> Forall nosep l -> Forall simple (fold_left norm_step l acc).
Proof.
  revert acc. induction l as [|c l IH]; intros acc Hacc Hl; simpl; [done |].
  inversion Hl; subst. apply IH; [by apply norm_step_Forall | done].
Qed.

(** What a path string resolves to is a list of simple components. *)
Lemma resolve_simple (wd s : string) : Forall simple (resolve fl wd s).
Proof.
  unfold resolve, normalize.
  apply fold_norm_step_Forall; [by constructor | apply split_sep_Forall].
Qed.

(** Reading back a rendered path gives its components. *)
Lemma normalize_render (p : list string) :
  Forall simple p -> normalize (split_sep fl (render fl p)) = p.
Proof.
  intros Hp. unfold render. simpl. rewrite is_sep_sep.
  destruct p as [|x l].
  - done.
  - rewrite split_concat.
    + unfold normalize.
      change (fold_left norm_step (x :: l) [] = x :: l).
      by rewrite fold_norm_step_simple.
    + eapply Forall_impl; [exact Hp |]. intros c. apply simple_nosep.
Qed.

Lemma startswith_render (p : list string) : startswith_sep fl (render fl p) = true.
Proof. unfold render. simpl. apply is_sep_sep. Qed.

Lemma resolve_render (wd : string) (p : list string) :
  Forall simple p -> resolve fl wd (render fl p) = p.
Proof.
  intros Hp. unfold resolve. rewrite startswith_render. by apply normalize_render.
Qed.

Lemma endswith_sep_inv (a : string) :
  endswith_sep fl a = true ->
  exists a0 c, a = a0 +:+ String c EmptyString /\ is_sep fl c = true.
Proof.
  induction a as [|x a IH]; simpl; [done |].
  destruct a as [|y a].
  - intros Hx. by exists EmptyString, x.
  - intros (a0 & c & Ha & Hc)%IH. exists (String x a0), c.
    by rewrite append_cons, <- Ha.
Qed.

(** Joining, then splitting and normalising, is normalising the first
    part and going on with the components of the second. *)
Lemma fold_norm_step_join (a b : string) (acc : list string) :
  startswith_sep fl b = false ->
  fold_left norm_step (split_sep fl (os_path_join fl a b)) acc
  = fold_left norm_step (split_sep fl b) (fold_left norm_step (split_sep fl a) acc).
Proof.
  intros Hb. unfold os_path_join. rewrite Hb.
  destruct (a =? "")%string eqn:Ha; simpl.
  - apply String.eqb_eq in Ha. subst a. by rewrite append_nil.
  - destruct (endswith_sep fl a) eqn:He.
    + apply endswith_sep_inv in He as (a0 & c & -> & Hc).
      rewrite append_assoc, append_cons, append_nil.
      rewrite !split_sep_app by done.
      rewrite !fold_left_app. done.
    + rewrite split_sep_app by apply is_sep_sep.
      by rewrite fold_left_app.
Qed.

Lemma startswith_join (a b : string) :
  startswith_sep fl b = false ->
  startswith_sep fl (os_path_join fl a b) = startswith_sep fl (a +:+ b).
Proof.
  intros Hb. unfold os_path_join. rewrite Hb.
  destruct a as [|x a]; [done |].
  by destruct ((String x a =? "")%string || endswith_sep fl (String x a)).
Qed.

Lemma simple_relative (k : string) :
  simple_component fl k = true -> startswith_sep fl k = false.
Proof.
  intros Hk%simple_nosep. destruct k as [|x k]; [done |].
  simpl in *. by apply orb_false_elim in Hk as [-> _].
Qed.

Lemma resolve_relative (wd s : string) :
  startswith_sep fl s = false ->
  resolve fl wd s = fold_left norm_step (split_sep fl s) (normalize (split_sep fl wd)).
Proof.
  intros Hs. unfold resolve. rewrite Hs. unfold normalize.
  by rewrite fold_norm_step_join.
Qed.

(** [os.path.join(a, k)] names the entry [k] of what [a] names. *)
Lemma resolve_join (wd a k : string) :
  simple_component fl k = true ->
  resolve fl wd (os_path_join fl a k) = resolve fl wd a ++ [k].
Proof.
  intros Hk. pose proof (simple_relative k Hk) as Hrel.
  assert (Hone : split_sep fl k = [k]) by by apply split_sep_nosep, simple_nosep.
  destruct (startswith_sep fl a) eqn:Ha.
  - assert (Hj : startswith_sep fl (os_path_join fl a k) = true).
    { rewrite startswith_join by done. destruct a; [done |]. exact Ha. }
    unfold resolve. rewrite Ha, Hj.
    unfold normalize. rewrite fold_norm_step_join by done.
    rewrite Hone. cbn [fold_left]. by apply norm_step_simple.
  - assert (Hj : startswith_sep fl (os_path_join fl a k) = false).
    { rewrite startswith_join by done. destruct a; [done |]. exact Ha. }
    rewrite (resolve_relative wd _ Hj), (resolve_relative wd _ Ha).
    rewrite fold_norm_step_join by done. rewrite Hone. cbn [fold_left].
    by apply norm_step_simple.
Qed.

(** A relative path is read from the current directory. *)
Lemma resolve_in_cwd (d : list string) (s : string) :
  Forall simple d -> startswith_sep fl s = false ->
  resolve fl (render fl d) s = fold_left norm_step (split_sep fl s) d.
Proof.
  intros Hd Hs. rewrite resolve_relative by done. by rewrite normalize_render.
Qed.

Lemma resolve_abspath (wd wd' s : string) :
  resolve fl wd' (os_path_abspath fl wd s) = resolve fl wd s.
Proof. unfold os_path_abspath. apply resolve_render, resolve_simple. Qed.
End PathFacts.

(* ===================================================================== *)
(** ** Properties of the filesystem tree *)
(* ===================================================================== *)

Section TreeFacts.
Implicit Types (p q d : list string) (n : node) (v : option node).
Implicit Types (es : gmap string node).

Lemma lookup_path_app p q n :
  lookup_path (p ++ q) n = lookup_path p n ≫= lookup_path q.
Proof.
  revert n. induction p as [|a p IH]; intros n; simpl; [done |].
  destruct n as [c|es]; [done |].
  destruct (es !! a) as [x|]; simpl; [apply IH | done].
Qed.

(** An entry of a directory is found through the directory. *)
Lemma lookup_path_child d k n es :
  lookup_path d n = Some (Dir es) -> lookup_path (d ++ [k]) n = es !! k.
Proof.
  intros Hd. rewrite lookup_path_app, Hd. simpl. by destruct (es !! k).
Qed.

Lemma lookup_path_below d k q n es :
  lookup_path d n = Some (Dir es) ->
  lookup_path (d ++ k :: q) n = es !! k ≫= lookup_path q.
Proof. intros Hd. by rewrite lookup_path_app, Hd. Qed.

Lemma set_path_cons a p v es :
  p <> [] ->
  set_path (a :: p) v (Dir es) = Dir (partial_alter (fmap (set_path p v)) a es).
Proof. by destruct p. Qed.

(** Setting an entry changes the directory that holds it at that entry. *)
Lemma lookup_set_path_parent d k v n es :
  lookup_path d n = Some (Dir es) ->
  lookup_path d (set_path (d ++ [k]) v n)
  = Some (Dir (partial_alter (fun _ => v) k es)).
Proof.
  revert n. induction d as [|a d IH]; intros n Hd; simpl in Hd.
  - by simplify_eq.
  - destruct n as [c|es0]; [done |].
    destruct (es0 !! a) as [x|] eqn:Ha; simpl in Hd; [| done].
    change ((a :: d) ++ [k]) with (a :: (d ++ [k])).
    rewrite set_path_cons by (by destruct d).
    simpl. rewrite lookup_partial_alter_eq, Ha. simpl. by apply IH.
Qed.

Lemma lookup_set_path_eq p v n es :
  p <> [] -> lookup_path (removelast p) n = Some (Dir es) ->
  lookup_path p (set_path p v n) = v.
Proof.
  intros Hp Hd. rewrite (app_removelast_last "" Hp) at 1 2.
  rewrite (lookup_path_child _ _ _ _ (lookup_set_path_parent _ _ v _ _ Hd)).
  by rewrite lookup_partial_alter_eq.
Qed.

(** Setting one entry leaves what lies under another entry of the same
    directory as it is. *)
Lemma lookup_set_path_sibling d k k' q v n :
  k <> k' ->
  lookup_path (d ++ k' :: q) (set_path (d ++ [k]) v n) = lookup_path (d ++ k' :: q) n.
Proof.
  intros Hk. revert n. induction d as [|a d IH]; intros n.
  - destruct n as [c|es]; [done |]. simpl.
    by rewrite lookup_partial_alter_ne.
  - destruct n as [c|es]; [done |].
    change ((a :: d) ++ [k]) with (a :: (d ++ [k])).
    rewrite set_path_cons by (by destruct d).
    simpl. rewrite lookup_partial_alter_eq.
    destruct (es !! a) as [x|]; simpl; [apply IH | done].
Qed.

Lemma size_zero_lookup es k : size es = 0 -> es !! k = None.
Proof. intros ->%map_size_empty_iff. apply lookup_empty. Qed.
End TreeFacts.

(* ===================================================================== *)
(** ** Rules for [hoare] *)
(* ===================================================================== *)

Section HoareRules.
Implicit Types (P : state -> Prop) (E : exn -> state -> Prop).

Lemma hoare_ret {A : Type} P (a : A) (Q : A -> state -> Prop) E :
  (forall st, P st -> Q a st) -> hoare P (ret a) Q E.
Proof. intros H st HP. by apply H. Qed.

Lemma hoare_raise {A : Type} P (e : exn) (Q : A -> state -> Prop) E :
  (forall st, P st -> E e st) -> hoare P (raise e) Q E.
Proof. intros H st HP. by apply H. Qed.

Lemma hoare_bind {A B : Type} P (m : M A) (k : A -> M B) (R : A -> state -> Prop)
    (Q : B -> state -> Prop) E :
  hoare P m R E -> (forall a, hoare (R a) (k a) Q E) -> hoare P (bind m k) Q E.
Proof.
  intros Hm Hk st HP. unfold bind. specialize (Hm st HP).
  destruct (m st) as [st' [a|e]]; [by apply Hk | done].
Qed.

Lemma hoare_conseq {A : Type} (P P' : state -> Prop) (m : M A)
    (Q Q' : A -> state -> Prop) (E E' : exn -> state -> Prop) :
  hoare P' m Q' E' ->
  (forall st, P st -> P' st) ->
  (forall a st, Q' a st -> Q a st) ->
  (forall e st, E' e st -> E e st) ->
  hoare P m Q E.
Proof.
  intros Hm HP HQ HE st Hst. specialize (Hm st (HP st Hst)).
  destruct (m st) as [st' [a|e]]; [by apply HQ | by apply HE].
Qed.

(** What holds of the state alone and is kept by every round is kept by
    the loop. *)
Lemma hoare_for_each {A : Type} (I : state -> Prop) (l : list A) (body : A -> M unit) E :
  (forall x, x ∈ l -> hoare I (body x) (fun _ => I) E) ->
  hoare I (for_each l body) (fun _ => I) E.
Proof.
  induction l as [|x l IH]; intros Hbody; simpl.
  - by apply hoare_ret.
  - eapply hoare_bind.
    + apply Hbody. apply elem_of_cons. by left.
    + intros []. apply IH. intros y Hy. apply Hbody. apply elem_of_cons. by right.
Qed.

(** The same with an invariant that follows the rest of the list. *)
Lemma hoare_for_each_rest {A : Type} (I : list A -> state -> Prop) (l : list A)
    (body : A -> M unit) E :
  (forall x l', hoare (I (x :: l')) (body x) (fun _ => I l') E) ->
  hoare (I l) (for_each l body) (fun _ => I []) E.
Proof.
  intros Hbody. induction l as [|x l IH]; simpl.
  - by apply hoare_ret.
  - eapply hoare_bind; [apply Hbody |]. intros []. apply IH.
Qed.
End HoareRules.

(* ===================================================================== *)
(** ** [safe_delete] *)
(* ===================================================================== *)

Lemma allow_list_simple (fl : flavour) (k : string) :
  k ∈ allow_list -> simple_component fl k = true.
Proof.
  unfold allow_list, folders_to_remove, files_to_remove. simpl.
  rewrite !elem_of_cons, elem_of_nil.
  intros H; destruct fl; decompose [or] H; subst; done.
Qed.

Lemma lookup_path_parent (p : list string) (n x : node) :
  p <> [] -> lookup_path p n = Some x ->
  exists es, lookup_path (removelast p) n = Some (Dir es).
Proof.
  intros Hp. rewrite (app_removelast_last "" Hp) at 1.
  rewrite lookup_path_app.
  destruct (lookup_path (removelast p) n) as [[c|es]|]; simpl; [done | by eauto | done].
Qed.

Section SafeDelete.
Variable h : host.
Let fl : flavour := flavour_of h.

(** One round of the first loop. *)
Lemma remove_folder_round (file_path folder : string) (st : state) :
  simple_component fl folder = true ->
  let p := resolve fl (cwd st) file_path ++ [folder] in
  (b <- os_path_exists fl (os_path_join fl file_path folder) ;;
   if b then shutil_rmtree fl (os_path_join fl file_path folder) else ret tt) st
  = match lookup_path p (fs st) with
    | Some (Dir _) => (set_fs st (set_path p None (fs st)), Returned tt)
    | Some (File _) => (st, Raised NotADirectoryError)
    | None => (st, Returned tt)
    end.
Proof.
  intros Hk p. unfold bind, os_path_exists, shutil_rmtree.
  rewrite resolve_join by done. fold p.
  destruct (lookup_path p (fs st)) as [[c|es]|] eqn:Hp; [| | done];
    cbn beta iota; rewrite resolve_join by done; fold p; rewrite Hp; [done |].
  subst p. by destruct (resolve fl (cwd st) file_path).
Qed.

(** One round of the second loop. *)
Lemma remove_file_round (file_path file : string) (st : state) :
  simple_component fl file = true ->
  let p := resolve fl (cwd st) file_path ++ [file] in
  (b <- os_path_exists fl (os_path_join fl file_path file) ;;
   if b then os_remove fl (os_path_join fl file_path file) else ret tt) st
  = match lookup_path p (fs st) with
    | Some (File _) => (set_fs st (set_path p None (fs st)), Returned tt)
    | Some (Dir _) => (st, Raised IsADirectoryError)
    | None => (st, Returned tt)
    end.
Proof.
  intros Hk p. unfold bind, os_path_exists, os_remove.
  rewrite resolve_join by done. fold p.
  destruct (lookup_path p (fs st)) as [[c|es]|] eqn:Hp; [| | done];
    cbn beta iota; rewrite resolve_join by done; fold p; by rewrite Hp.
Qed.

(** Both loops keep whatever holds of the current directory and of the
    filesystem and survives the removal of one listed entry. *)
Lemma safe_delete_loops (file_path : string) (wd : string) (I : node -> Prop) :
  let d := resolve fl wd file_path in
  (forall k n, k ∈ allow_list -> I n -> I (set_path (d ++ [k]) None n)) ->
  forall l (body : string -> M unit),
    l ⊆ allow_list ->
    (forall k st, k ∈ l -> cwd st = wd ->
       body k st = (st, Returned tt)
       \/ (exists e, body k st = (st, Raised e))
       \/ body k st = (set_fs st (set_path (d ++ [k]) None (fs st)), Returned tt)) ->
    hoare (fun st => cwd st = wd /\ I (fs st)) (for_each l body)
          (fun _ st => cwd st = wd /\ I (fs st))
          (fun _ st => cwd st = wd /\ I (fs st)).
Proof.
  intros d HI l body Hl Hbody. apply hoare_for_each.
  intros k Hk st [Hwd Hst].
  destruct (Hbody k st Hk Hwd) as [-> | [[e ->] | ->]]; simpl; try done.
  split; [done |]. apply HI; [by apply Hl | done].
Qed.

Lemma folder_round_cases (file_path : string) (k : string) (st : state) :
  k ∈ folders_to_remove ->
  let d := resolve fl (cwd st) file_path in
  let body := fun folder =>
    (b <- os_path_exists fl (os_path_join fl file_path folder) ;;
     if b then shutil_rmtree fl (os_path_join fl file_path folder) else ret tt) in
  body k st = (st, Returned tt)
  \/ (exists e, body k st = (st, Raised e))
  \/ body k st = (set_fs st (set_path (d ++ [k]) None (fs st)), Returned tt).
Proof.
  intros Hk d body. unfold body.
  rewrite remove_folder_round
    by (apply allow_list_simple, elem_of_app; by left).
  fold d. destruct (lookup_path (d ++ [k]) (fs st)) as [[c|es]|]; eauto.
Qed.

Lemma file_round_cases (file_path : string) (k : string) (st : state) :
  k ∈ files_to_remove ->
  let d := resolve fl (cwd st) file_path in
  let body := fun file =>
    (b <- os_path_exists fl (os_path_join fl file_path file) ;;
     if b then os_remove fl (os_path_join fl file_path file) else ret tt) in
  body k st = (st, Returned tt)
  \/ (exists e, body k st = (st, Raised e))
  \/ body k st = (set_fs st (set_path (d ++ [k]) None (fs st)), Returned tt).
Proof.
  intros Hk d body. unfold body.
  rewrite remove_file_round
    by (apply allow_list_simple, elem_of_app; by right).
  fold d. destruct (lookup_path (d ++ [k]) (fs st)) as [[c|es]|]; eauto.
Qed.

(** The two loops of [safe_delete], for any property of the filesystem
    that the removal of a listed entry keeps. *)
Lemma safe_delete_removals (file_path : string) (wd : string) (I : node -> Prop) :
  let d := resolve fl wd file_path in
  (forall k n, k ∈ allow_list -> I n -> I (set_path (d ++ [k]) None n)) ->
  forall (Q : state -> Prop) (E : exn -> state -> Prop),
    hoare (fun st => cwd st = wd /\ I (fs st)) (os_rmdir fl file_path)
          (fun _ => Q) E ->
    (forall e st, cwd st = wd /\ I (fs st) -> E e st) ->
    hoare (fun st => cwd st = wd /\ I (fs st)) (safe_delete h file_path)
          (fun _ => Q) E.
Proof.
  intros d HI Q E Hrmdir HE. unfold safe_delete.
  apply (hoare_bind _ _ _ (fun _ st => cwd st = wd /\ I (fs st))).
  { eapply hoare_conseq; [apply (safe_delete_loops file_path wd I HI) | done | done |].
    - intros k Hk. apply elem_of_app. by left.
    - intros k st Hk Hwd. subst wd. by apply folder_round_cases.
    - intros e st H. by apply HE. }
  intros []. apply (hoare_bind _ _ _ (fun _ st => cwd st = wd /\ I (fs st))).
  { eapply hoare_conseq; [apply (safe_delete_loops file_path wd I HI) | done | done |].
    - intros k Hk. apply elem_of_app. by right.
    - intros k st Hk Hwd. subst wd. by apply file_round_cases.
    - intros e st H. by apply HE. }
  intros []. exact Hrmdir.
Qed.
End SafeDelete.

(** [os.rmdir] raises and changes nothing, or removes an empty directory
    that is not the root. *)
Lemma os_rmdir_cases (fl : flavour) (s : string) (st : state) :
  let p := resolve fl (cwd st) s in
  (exists e, os_rmdir fl s st = (st, Raised e))
  \/ (os_rmdir fl s st = (set_fs st (set_path p None (fs st)), Returned tt)
      /\ p <> []
      /\ exists es, lookup_path p (fs st) = Some (Dir es) /\ size es = 0).
Proof.
  intros p. unfold os_rmdir. fold p.
  destruct (lookup_path p (fs st)) as [[c|es]|] eqn:Hp; [by eauto | | by eauto].
  destruct (decide (size es = 0)) as [Hsz|Hsz]; [| by eauto].
  destruct p as [|a p']; [by eauto |]. right. by eauto.
Qed.

Lemma lookup_set_path_removed (p : list string) (n : node) (x : node) :
  p <> [] -> lookup_path p n = Some x -> lookup_path p (set_path p None n) = None.
Proof.
  intros Hp Hx. destruct (lookup_path_parent p n x Hp Hx) as [es Hes].
  by rewrite (lookup_set_path_eq p None n es).
Qed.

Section SafeDeleteSpec.
Variable h : host.
Let fl : flavour := flavour_of h.

(** What [safe_delete] does to a directory with entries [es]: it returns
    only if every entry was a listed one, and then the directory is
    gone; when it raises the directory is still there, with every
    entry outside the list as it was. *)
Lemma safe_delete_spec (file_path : string) (st : state) (es : gmap string node) :
  let d := resolve fl (cwd st) file_path in
  lookup_path d (fs st) = Some (Dir es) ->
  match safe_delete h file_path st with
  | (st', Returned _) =>
      (forall k, k ∉ allow_list -> es !! k = None)
      /\ lookup_path d (fs st') = None
  | (st', Raised _) =>
      exists es', lookup_path d (fs st') = Some (Dir es')
                  /\ forall k, k ∉ allow_list -> es' !! k = es !! k
  end.
Proof.
  intros d Hd.
  set (I := fun n : node =>
    exists es', lookup_path d n = Some (Dir es')
                /\ forall k, k ∉ allow_list -> es' !! k = es !! k).
  apply (safe_delete_removals h file_path (cwd st)) with
    (I := I)
    (Q := fun st' => (forall k, k ∉ allow_list -> es !! k = None)
                     /\ lookup_path d (fs st') = None)
    (E := fun _ st' => I (fs st')).
  - intros k n Hk (es' & Hn & Hes'). eexists. split.
    + by apply lookup_set_path_parent.
    + intros k' Hk'. rewrite lookup_partial_alter_ne by (by intros ->).
      by apply Hes'.
  - intros st1 [Hwd (es' & Hn & Hes')].
    destruct (os_rmdir_cases (flavour_of h) file_path st1)
      as [[e ->] | (-> & Hne & es1 & Hes1 & Hsz)].
    { by exists es'. }
    rewrite Hwd in Hne, Hes1 |- *. fold fl d in Hne, Hes1 |- *.
    rewrite Hn in Hes1. simplify_eq. simpl. split.
    + intros k Hk. rewrite <- Hes' by done. by apply size_zero_lookup.
    + by eapply lookup_set_path_removed.
  - intros e st1 [_ HI]. exact HI.
  - split; [done |]. by exists es.
Qed.

(** C10: [safe_delete] leaves every entry of the target directory whose
    name is not on the allow list, and all that lies under it, as it
    was, whether it returns or raises. *)
Theorem safe_delete_frame (file_path : string) (st : state) (k : string)
    (q : list string) :
  k ∉ allow_list ->
  let d := resolve (flavour_of h) (cwd st) file_path in
  lookup_path (d ++ k :: q) (fs (safe_delete h file_path st).1)
  = lookup_path (d ++ k :: q) (fs st).
Proof.
  intros Hk d. subst d. fold fl. set (d := resolve fl (cwd st) file_path).
  set (I := fun n : node => lookup_path (d ++ k :: q) n = lookup_path (d ++ k :: q) (fs st)).
  assert (H : hoare (fun st' => cwd st' = cwd st /\ I (fs st'))
                (safe_delete h file_path)
                (fun _ st' => I (fs st')) (fun _ st' => I (fs st'))).
  { apply (safe_delete_removals h file_path (cwd st)) with (I := I).
    - intros k' n Hk' Hn. unfold I.
      rewrite lookup_set_path_sibling by (by intros ->). exact Hn.
    - intros st1 [Hwd Hn].
      destruct (os_rmdir_cases (flavour_of h) file_path st1)
      as [[e ->] | (-> & Hne & es1 & Hes1 & Hsz)].
      { done. }
      rewrite Hwd in Hne, Hes1 |- *. fold fl d in Hne, Hes1 |- *.
      simpl. unfold I. rewrite <- Hn.
      rewrite !lookup_path_app, Hes1.
      rewrite (lookup_set_path_removed d (fs st1) _ Hne Hes1).
      simpl. by rewrite size_zero_lookup.
    - by intros e st1 [_ Hn]. }
  specialize (H st (conj eq_refl eq_refl)).
  by destruct (safe_delete h file_path st) as [st' [[]|e]].
Qed.
End SafeDeleteSpec.

Lemma folders_not_files (k : string) :
  k ∈ folders_to_remove -> k ∈ files_to_remove -> False.
Proof.
  unfold folders_to_remove, files_to_remove.
  rewrite !elem_of_cons, !elem_of_nil.
  intros H1 H2. decompose [or] H1; subst; decompose [or] H2; done.
Qed.

(** A directory, not the root, that holds only what the tool itself
    creates is removed without an error. *)
Lemma safe_delete_scaffold (h : host) (file_path : string) (st : state)
    (es : gmap string node) :
  let d := resolve (flavour_of h) (cwd st) file_path in
  d <> [] ->
  lookup_path d (fs st) = Some (Dir es) ->
  scaffold_only es ->
  exists st', safe_delete h file_path st = (st', Returned tt)
              /\ lookup_path d (fs st') = None.
Proof.
  intros d Hne Hd Hes.
  set (I1 := fun (rem : list string) (st' : state) =>
    rem ⊆ folders_to_remove /\ cwd st' = cwd st /\
    exists es', lookup_path d (fs st') = Some (Dir es')
      /\ forall k x, es' !! k = Some x ->
           (k ∈ rem /\ is_dir x = true) \/ (k ∈ files_to_remove /\ is_dir x = false)).
  set (I2 := fun (rem : list string) (st' : state) =>
    rem ⊆ files_to_remove /\ cwd st' = cwd st /\
    exists es', lookup_path d (fs st') = Some (Dir es')
      /\ forall k x, es' !! k = Some x -> k ∈ rem /\ is_dir x = false).
  assert (H : hoare (I1 folders_to_remove) (safe_delete h file_path)
                (fun _ st' => lookup_path d (fs st') = None) (fun _ _ => False)).
  { unfold safe_delete.
    apply hoare_bind with (R := fun _ => I1 []).
    { apply hoare_for_each_rest with (I := I1).
      intros x l' st1 (Hsub & Hwd & es' & Hn & Hes').
      assert (Hx : x ∈ folders_to_remove) by (apply Hsub, elem_of_cons; by left).
      rewrite remove_folder_round
        by (apply allow_list_simple, elem_of_app; by left).
      rewrite Hwd. fold d. rewrite (lookup_path_child d x _ es' Hn).
      assert (Hsub' : l' ⊆ folders_to_remove).
      { intros y Hy. apply Hsub, elem_of_cons. by right. }
      destruct (es' !! x) as [[c|esx]|] eqn:Hlx.
      - destruct (Hes' x _ Hlx) as [[_ ?] | [? _]]; [done |].
        by eapply folders_not_files.
      - simpl. split; [done |]. split; [done |]. eexists. split.
        + by apply lookup_set_path_parent.
        + intros k y. destruct (decide (k = x)) as [-> | Hkx].
          * by rewrite lookup_partial_alter_eq.
          * rewrite lookup_partial_alter_ne by done. intros Hk.
            destruct (Hes' k y Hk) as [[Hin ?] | ?]; [left | by right].
            apply elem_of_cons in Hin as [? | ?]; done.
      - split; [done |]. split; [done |]. exists es'. split; [done |].
        intros k y Hk. destruct (Hes' k y Hk) as [[Hin ?] | ?]; [left | by right].
        apply elem_of_cons in Hin as [-> | ?]; [congruence | done]. }
    intros []. apply hoare_bind with (R := fun _ => I2 []).
    { apply hoare_conseq with (P' := I2 files_to_remove) (Q' := fun _ => I2 [])
                              (E' := fun _ _ => False);
        [apply hoare_for_each_rest with (I := I2) | | done | done].
      - intros x l' st1 (Hsub & Hwd & es' & Hn & Hes').
        assert (Hx : x ∈ files_to_remove) by (apply Hsub, elem_of_cons; by left).
        rewrite remove_file_round
          by (apply allow_list_simple, elem_of_app; by right).
        rewrite Hwd. fold d. rewrite (lookup_path_child d x _ es' Hn).
        assert (Hsub' : l' ⊆ files_to_remove).
        { intros y Hy. apply Hsub, elem_of_cons. by right. }
        destruct (es' !! x) as [[c|esx]|] eqn:Hlx.
        + simpl. split; [done |]. split; [done |]. eexists. split.
          * by apply lookup_set_path_parent.
          * intros k y. destruct (decide (k = x)) as [-> | Hkx].
            -- by rewrite lookup_partial_alter_eq.
            -- rewrite lookup_partial_alter_ne by done. intros Hk.
               destruct (Hes' k y Hk) as [Hin ?]. split; [| done].
               apply elem_of_cons in Hin as [? | ?]; done.
        + by destruct (Hes' x _ Hlx) as [_ ?].
        + split; [done |]. split; [done |]. exists es'. split; [done |].
          intros k y Hk. destruct (Hes' k y Hk) as [Hin ?]. split; [| done].
          apply elem_of_cons in Hin as [-> | ?]; [congruence | done].
      - intros st1 (_ & Hwd & es' & Hn & Hes'). split; [done |]. split; [done |].
        exists es'. split; [done |]. intros k y Hk.
        destruct (Hes' k y Hk) as [[Hin _] | ?]; [| done].
        by apply elem_of_nil in Hin. }
    intros [] st1 (_ & Hwd & es' & Hn & Hes').
    destruct (os_rmdir_cases (flavour_of h) file_path st1)
      as [[e He] | (-> & _ & _)].
    - exfalso. revert He. unfold os_rmdir. rewrite Hwd. fold d. rewrite Hn.
      assert (Hsz : size es' = 0).
      { apply map_size_empty_iff, map_empty. intros k.
        destruct (es' !! k) as [y|] eqn:Hk; [| done].
        destruct (Hes' k y Hk) as [Hin _]. by apply elem_of_nil in Hin. }
      destruct (decide (size es' = 0)); [| done].
      by destruct d.
    - rewrite Hwd. fold d. simpl. by eapply lookup_set_path_removed. }
  specialize (H st). 
  destruct (safe_delete h file_path st) as [st' [[]|e]].
  - exists st'. split; [done |]. apply H.
    split; [done |]. split; [done |]. exists es. split; [done |].
    intros k x Hk. destruct (Hes k x Hk) as [? | ?]; [by left | by right].
  - exfalso. apply H.
    split; [done |]. split; [done |]. exists es. split; [done |].
    intros k x Hk. destruct (Hes k x Hk) as [? | ?]; [by left | by right].
Qed.

(* ===================================================================== *)
(** ** The filesystem calls inside a known directory *)
(* ===================================================================== *)

Section InDirectory.
Variables (fl : flavour) (d : list string) (k s : string) (st : state).
Hypothesis Hs : resolve fl (cwd st) s = d ++ [k].

Section Present.
Variable es : gmap string node.
Hypothesis Hd : lookup_path d (fs st) = Some (Dir es).

Lemma os_path_exists_in_dir :
  os_path_exists fl s st
  = (st, Returned match es !! k with Some _ => true | None => false end).
Proof.
  unfold os_path_exists. by rewrite Hs, (lookup_path_child d k _ es Hd).
Qed.

Lemma os_mkdir_in_dir :
  os_mkdir fl s st
  = match es !! k with
    | Some _ => (st, Raised FileExistsError)
    | None => (set_fs st (set_path (d ++ [k]) (Some (Dir ∅)) (fs st)), Returned tt)
    end.
Proof.
  unfold os_mkdir. rewrite Hs, (lookup_path_child d k _ es Hd).
  destruct (es !! k); [done |]. by rewrite removelast_last, Hd.
Qed.

Lemma open_w_in_dir (c : content) :
  open_w fl s c st
  = match es !! k with
    | Some (Dir _) => (st, Raised IsADirectoryError)
    | _ => (set_fs st (set_path (d ++ [k]) (Some (File c)) (fs st)), Returned tt)
    end.
Proof.
  unfold open_w. rewrite Hs, (lookup_path_child d k _ es Hd).
  rewrite removelast_last, Hd. by destruct (es !! k) as [[?|?]|].
Qed.

Lemma lookup_path_set_entry (x : node) :
  lookup_path d (fs (set_fs st (set_path (d ++ [k]) (Some x) (fs st))))
  = Some (Dir (<[k := x]> es)).
Proof. simpl. by apply lookup_set_path_parent. Qed.
End Present.

Section Absent.
Hypothesis Hd : forall es, lookup_path d (fs st) <> Some (Dir es).

Lemma lookup_path_no_dir : lookup_path (d ++ [k]) (fs st) = None.
Proof.
  rewrite lookup_path_app.
  destruct (lookup_path d (fs st)) as [[c|es]|]; [done | | done].
  by destruct (Hd es).
Qed.

Lemma os_path_exists_no_dir : os_path_exists fl s st = (st, Returned false).
Proof. unfold os_path_exists. by rewrite Hs, lookup_path_no_dir. Qed.

Lemma os_mkdir_no_dir : exists e, os_mkdir fl s st = (st, Raised e).
Proof.
  unfold os_mkdir. rewrite Hs, lookup_path_no_dir, removelast_last.
  destruct (lookup_path d (fs st)) as [[c|es]|]; [by eauto | | by eauto].
  by destruct (Hd es).
Qed.
End Absent.
End InDirectory.

(** The names of "File creations", read in the project directory. *)
Lemma resolve_created (fl : flavour) (d : list string) :
  Forall (fun c => simple_component fl c = true) d ->
  resolve fl (render fl d) "./data" = d ++ ["data"]
  /\ resolve fl (render fl d) "requirements.txt" = d ++ ["requirements.txt"]
  /\ resolve fl (render fl d) ".gitignore" = d ++ [".gitignore"]
  /\ resolve fl (render fl d) "solution.ipynb" = d ++ ["solution.ipynb"]
  /\ resolve fl (render fl d) "solution.py" = d ++ ["solution.py"].
Proof.
  intros Hd. rewrite !resolve_in_cwd by (done || by destruct fl).
  by destruct fl.
Qed.

(* ===================================================================== *)
(** ** The create path *)
(* ===================================================================== *)

Section FileCreations.
Variables (h : host) (d : list string) (sp : list command).
Let fl : flavour := flavour_of h.
Hypothesis Hsimple : Forall (fun c => simple_component fl c = true) d.

#[local] Abbreviation in_project := (in_project h d sp).

Lemma hoare_open_w (s k : string) (c : content) (es : gmap string node) :
  resolve fl (render fl d) s = d ++ [k] ->
  hoare (in_project es) (open_w fl s c)
        (fun _ => in_project (<[k := File c]> es)) (fun _ _ => True).
Proof.
  intros Hs st (Hwd & Hsp & Hd). fold fl in Hwd. rewrite <- Hwd in Hs.
  rewrite (open_w_in_dir fl d k s st Hs es Hd).
  assert (Hok : in_project (<[k := File c]> es)
                  (set_fs st (set_path (d ++ [k]) (Some (File c)) (fs st)))).
  { split; [done |]. split; [done |]. by apply lookup_path_set_entry. }
  by destruct (es !! k) as [[?|?]|].
Qed.

Lemma file_creations_in_dir (project_type : pyval) (es : gmap string node) :
  hoare (in_project es) (main_file_creations h project_type)
        (fun _ => in_project (created_entries project_type es)) (fun _ _ => True).
Proof.
  destruct (resolve_created fl d Hsimple) as (Hdata & Hreq & Hign & Hnb & Hpy).
  unfold main_file_creations. fold fl.
  apply hoare_bind with
    (R := fun b st => in_project es st
                      /\ b = match es !! "data" with Some _ => true | None => false end).
  { intros st (Hwd & Hsp & Hd). fold fl in Hwd. rewrite <- Hwd in Hdata.
    by rewrite (os_path_exists_in_dir fl d "data" "./data" st Hdata es Hd). }
  intros b. apply hoare_bind with (R := fun _ => in_project (with_data es)).
  { intros st [(Hwd & Hsp & Hd) ->]. fold fl in Hwd. rewrite <- Hwd in Hdata. unfold with_data.
    destruct (es !! "data") as [x|] eqn:Hx; simpl; [done |].
    rewrite (os_mkdir_in_dir fl d "data" "./data" st Hdata es Hd), Hx.
    split; [done |]. split; [done |]. by apply lookup_path_set_entry. }
  intros []. eapply hoare_bind; [by apply (hoare_open_w _ _ _ _ Hreq) |].
  intros []. eapply hoare_bind; [by apply (hoare_open_w _ _ _ _ Hign) |].
  intros []. unfold created_entries, with_stub.
  destruct (py_eq_str project_type "jupyter-notebook").
  { by apply (hoare_open_w _ _ _ _ Hnb). }
  destruct (py_eq_str project_type "python").
  { by apply (hoare_open_w _ _ _ _ Hpy). }
  by apply hoare_ret.
Qed.

(** Outside a directory nothing can be created. *)
Lemma file_creations_no_dir (project_type : pyval) (st : state) :
  cwd st = render fl d ->
  (forall es, lookup_path d (fs st) <> Some (Dir es)) ->
  exists e, main_file_creations h project_type st = (st, Raised e).
Proof.
  intros Hwd Hd.
  destruct (resolve_created fl d Hsimple) as (Hdata & _). rewrite <- Hwd in Hdata.
  unfold main_file_creations, bind. fold fl.
  rewrite (os_path_exists_no_dir fl d "data" "./data" st Hdata Hd). simpl.
  destruct (os_mkdir_no_dir fl d "data" "./data" st Hdata Hd) as [e ->].
  by exists e.
Qed.

(** "File creations" returns only in a directory, and turns its entries
    into [created_entries]. *)
Lemma file_creations_returned (project_type : pyval) (st st' : state) :
  cwd st = render fl d -> spawned st = sp ->
  main_file_creations h project_type st = (st', Returned tt) ->
  exists es,
    lookup_path d (fs st) = Some (Dir es)
    /\ in_project (created_entries project_type es) st'.
Proof.
  intros Hwd Hsp Hrun.
  destruct (lookup_path d (fs st)) as [[c|es]|] eqn:Hd.
  - destruct (file_creations_no_dir project_type st Hwd) as [e He];
      [by rewrite Hd | congruence].
  - exists es. split; [done |].
    pose proof (file_creations_in_dir project_type es st (conj Hwd (conj Hsp Hd))) as H.
    by rewrite Hrun in H.
  - destruct (file_creations_no_dir project_type st Hwd) as [e He];
      [by rewrite Hd | congruence].
Qed.
End FileCreations.

Lemma hoare_subprocess_run (h : host) (cmd : command) (full : string)
    (sp : list command) (T : node -> Prop) :
  (forall n, T n -> T (child h cmd full n).1) ->
  hoare (fun st => cwd st = full /\ spawned st = sp /\ T (fs st))
        (subprocess_run h cmd)
        (fun _ st => cwd st = full /\ spawned st = sp ++ [cmd] /\ T (fs st))
        (fun _ _ => True).
Proof.
  intros HT st (Hwd & Hsp & Hfs). unfold subprocess_run.
  specialize (HT _ Hfs). rewrite Hwd.
  destruct (child h cmd full (fs st)) as [n [[]|e]]; [| done].
  simpl in *. by rewrite Hsp.
Qed.

Section EnvironmentSetup.
Variables (h : host) (d : list string) (git : pyval) (st0 : state).
Variable T : node -> Prop.
Let fl : flavour := flavour_of h.
Let full : string := render fl d.
Hypothesis Hsimple : Forall (fun c => simple_component fl c = true) d.
(* [T] holds of a project directory just made, of one found in place, *)
Hypothesis Hfresh :
  lookup_path d (fs st0) = None ->
  lookup_path d (set_path d (Some (Dir ∅)) (fs st0)) = Some (Dir ∅) ->
  T (set_path d (Some (Dir ∅)) (fs st0)).
Hypothesis Hthere :
  forall es, lookup_path d (fs st0) = Some (Dir es) -> T (fs st0).
(* and after each tool. *)
Hypothesis Htools :
  forall cmd n, cmd ∈ create_commands h full git -> T n -> T (child h cmd full n).1.

Lemma install_command_nt :
  (os_name h =? "nt")%string = true ->
  Shell (os_path_join fl (os_path_join fl (os_path_join fl full ".venv") "Scripts") "activate"
         +:+ " && pip install  " +:+ String.concat " " PACKAGES)
  ∈ create_commands h full git.
Proof.
  intros Hnt. unfold create_commands, install_commands. rewrite Hnt.
  apply elem_of_cons. right. apply elem_of_app. left. apply list_elem_of_singleton.
  reflexivity.
Qed.

Lemma install_command_posix :
  (os_name h =? "nt")%string = false ->
  (os_name h =? "posix")%string = true ->
  Shell ("source '"
         +:+ os_path_join fl (os_path_join fl (os_path_join fl full ".venv") "bin") "activate"
         +:+ "' && " +:+ continuation_indent
         +:+ "python -m pip install --upgrade pip && " +:+ continuation_indent
         +:+ "pip install " +:+ String.concat " " PACKAGES)
  ∈ create_commands h full git.
Proof.
  intros Hnt Hposix. unfold create_commands, install_commands. rewrite Hnt, Hposix.
  apply elem_of_cons. right. apply elem_of_app. left. apply list_elem_of_singleton.
  reflexivity.
Qed.

(** "Environment Setup" ends in the project directory, has run the
    commands of [create_commands] in their order, and keeps [T]. *)
Lemma environment_setup_spec :
  hoare (eq st0) (main_environment_setup h full git)
        (fun _ st => cwd st = full
                     /\ spawned st = spawned st0 ++ create_commands h full git
                     /\ T (fs st))
        (fun _ _ => True).
Proof.
  unfold main_environment_setup. fold fl.
  assert (Hres : forall wd, resolve fl wd full = d)
    by (intros wd; by apply resolve_render).
  apply hoare_bind with
    (R := fun b st => st = st0
            /\ b = match lookup_path d (fs st0) with Some _ => true | None => false end).
  { intros st <-. unfold os_path_exists. by rewrite Hres. }
  intros b. apply hoare_bind with
    (R := fun _ st => spawned st = spawned st0
            /\ forall es, lookup_path d (fs st) = Some (Dir es) -> T (fs st)).
  { intros st [-> ->].
    destruct (lookup_path d (fs st0)) as [x|] eqn:Hd; simpl.
    - split; [done |]. intros es Hes. apply (Hthere es). congruence.
    - unfold os_mkdir. rewrite Hres, Hd.
      destruct (lookup_path (removelast d) (fs st0)) as [[c|es0]|] eqn:Hpar; try done.
      simpl. split; [done |]. intros es Hes. apply Hfresh; [done |].
      apply (lookup_set_path_eq d _ _ es0); [| done].
      intros ->. simpl in Hd. congruence. }
  intros []. apply hoare_bind with
    (R := fun _ st => (cwd st = full /\ spawned st = spawned st0 /\ T (fs st))
            /\ exists es, lookup_path d (fs st) = Some (Dir es)).
  { intros st [Hsp HT]. unfold os_chdir. rewrite Hres.
    destruct (lookup_path d (fs st)) as [[c|es]|] eqn:Hd; try done.
    simpl. rewrite Hd. split; [by eauto | by eauto]. }
  intros []. apply hoare_bind with
    (R := fun b st => (cwd st = full /\ spawned st = spawned st0 /\ T (fs st))
            /\ b = true).
  { intros st [HI [es Hes]]. unfold os_path_exists. by rewrite Hres, Hes. }
  intros b'. apply hoare_bind with
    (R := fun _ st => cwd st = full /\ spawned st = spawned st0 ++ [venv_command h]
                      /\ T (fs st)).
  { intros st [HI ->]. revert st HI. apply hoare_subprocess_run.
    intros n. apply Htools. apply elem_of_cons. by left. }
  intros []. apply hoare_bind with
    (R := fun _ st => cwd st = full
            /\ spawned st = spawned st0 ++ venv_command h :: install_commands h full
            /\ T (fs st)).
  { destruct (os_name h =? "nt")%string eqn:Hnt.
    - eapply hoare_conseq; [apply (hoare_subprocess_run h _ full (spawned st0 ++ [venv_command h]) T) | done | | done].
      + intros n. apply Htools. by apply install_command_nt.
      + intros [] st (? & -> & ?). split; [done |]. split; [| done].
        rewrite <- app_assoc. f_equal. simpl. f_equal.
        unfold install_commands. rewrite Hnt. reflexivity.
    - destruct (os_name h =? "posix")%string eqn:Hposix.
      + eapply hoare_conseq; [apply (hoare_subprocess_run h _ full (spawned st0 ++ [venv_command h]) T) | done | | done].
        * intros n. apply Htools. by apply install_command_posix.
        * intros [] st (? & -> & ?). split; [done |]. split; [| done].
          rewrite <- app_assoc. f_equal. simpl. f_equal.
          unfold install_commands. rewrite Hnt, Hposix. reflexivity.
      + apply hoare_ret. intros st (? & -> & ?). split; [done |]. split; [| done].
        unfold install_commands. rewrite Hnt, Hposix. done. }
  intros []. unfold create_commands.
  destruct (truthy git) eqn:Hgit.
  - eapply hoare_conseq; [apply (hoare_subprocess_run h _ full (spawned st0 ++ venv_command h :: install_commands h full) T) | done | | done].
    + intros n. apply Htools. unfold create_commands. rewrite Hgit.
      apply elem_of_cons. right. apply elem_of_app. right.
      by apply list_elem_of_singleton.
    + intros [] st (? & -> & ?). split; [done |]. split; [| done].
      by rewrite <- app_assoc.
  - apply hoare_ret. intros st (? & -> & ?). split; [done |]. split; [| done].
    by rewrite app_nil_r.
Qed.
End EnvironmentSetup.

Section Main.
Variable h : host.
Let fl : flavour := flavour_of h.

Lemma project_dir_simple (wd file_path folder_name : string) :
  Forall (fun c => simple_component fl c = true)
         (project_dir h wd file_path folder_name).
Proof. apply resolve_simple. Qed.

(** Without [cleanup], [main] is the create path on the project
    directory. *)
Lemma main_creates (file_path folder_name : string)
    (project_type git cleanup verbose : pyval) (st : state) :
  truthy cleanup = false ->
  main h file_path folder_name project_type git cleanup verbose st
  = main_create h (render fl (project_dir h (cwd st) file_path folder_name))
                project_type git st.
Proof. intros Hc. unfold main, bind, getcwd. simpl. by rewrite Hc. Qed.

(** With [cleanup], [main] is [safe_delete] on the project directory,
    which has to be there. *)
Lemma main_cleans (file_path folder_name : string)
    (project_type git cleanup verbose : pyval) (st : state) :
  truthy cleanup = true ->
  let d := project_dir h (cwd st) file_path folder_name in
  main h file_path folder_name project_type git cleanup verbose st
  = match lookup_path d (fs st) with
    | Some _ => safe_delete h (render fl d) st
    | None => (st, Raised (ArgumentTypeError "Invalid file path supplied."))
    end.
Proof.
  intros Hc d. unfold main, bind, getcwd, verify_directory, bind, os_path_exists.
  simpl. rewrite Hc. fold fl.
  change (os_path_abspath fl (cwd st) (os_path_join fl file_path folder_name))
    with (render fl d).
  rewrite resolve_render by apply project_dir_simple.
  by destruct (lookup_path d (fs st)).
Qed.

(** A create run that returns has gone through the commands of
    [create_commands] and has left [created_entries] in the project
    directory; a property [T] of the filesystem that holds when the
    directory is entered and that the tools keep holds before "File
    creations". *)
Lemma main_create_returned (d : list string) (project_type git : pyval)
    (st st' : state) (T : node -> Prop) :
  Forall (fun c => simple_component fl c = true) d ->
  (lookup_path d (fs st) = None ->
   lookup_path d (set_path d (Some (Dir ∅)) (fs st)) = Some (Dir ∅) ->
   T (set_path d (Some (Dir ∅)) (fs st))) ->
  (forall es, lookup_path d (fs st) = Some (Dir es) -> T (fs st)) ->
  (forall cmd n, cmd ∈ create_commands h (render fl d) git -> T n ->
                 T (child h cmd (render fl d) n).1) ->
  main_create h (render fl d) project_type git st = (st', Returned tt) ->
  exists n es,
    T n /\ lookup_path d n = Some (Dir es)
    /\ in_project h d (spawned st ++ create_commands h (render fl d) git)
                  (created_entries project_type es) st'.
Proof.
  intros Hd Hfresh Hthere Htools. unfold main_create, bind.
  pose proof (environment_setup_spec h d git st T Hd Hfresh Hthere Htools st eq_refl) as H1.
  fold fl in H1.
  destruct (main_environment_setup h (render fl d) git st) as [st1 [[]|e]]; [| done].
  destruct H1 as (Hwd & Hsp & HT). intros Hrun.
  destruct (file_creations_returned h d _ Hd project_type st1 st' Hwd Hsp Hrun)
    as (es & Hes & Hin).
  by exists (fs st1), es.
Qed.
End Main.

(** The entries "File creations" writes. *)
Lemma created_entries_requirements (project_type : pyval) (es : gmap string node) :
  created_entries project_type es !! "requirements.txt" = Some requirements_file.
Proof.
  unfold created_entries, with_stub.
  destruct (py_eq_str project_type "jupyter-notebook");
    [| destruct (py_eq_str project_type "python")];
    rewrite !lookup_insert_ne by done; by rewrite lookup_insert_eq.
Qed.

Lemma created_entries_gitignore (project_type : pyval) (es : gmap string node) :
  created_entries project_type es !! ".gitignore" = Some gitignore_file.
Proof.
  unfold created_entries, with_stub.
  destruct (py_eq_str project_type "jupyter-notebook");
    [| destruct (py_eq_str project_type "python")];
    rewrite ?lookup_insert_ne by done; by rewrite lookup_insert_eq.
Qed.

Lemma with_data_lookup (es : gmap string node) (k : string) :
  k <> "data" -> with_data es !! k = es !! k.
Proof.
  intros Hk. unfold with_data. destruct (es !! "data"); [done |].
  by rewrite lookup_insert_ne.
Qed.

Lemma with_data_data (es : gmap string node) : is_Some (with_data es !! "data").
Proof.
  unfold with_data. destruct (es !! "data") eqn:H; [by rewrite H |].
  by rewrite lookup_insert_eq.
Qed.

(** Apart from the five names it writes, "File creations" leaves the
    entries as they are. *)
Lemma created_entries_other (project_type : pyval) (es : gmap string node) (k : string) :
  k <> "data" -> k <> "requirements.txt" -> k <> ".gitignore" ->
  k <> "solution.ipynb" -> k <> "solution.py" ->
  created_entries project_type es !! k = es !! k.
Proof.
  intros. unfold created_entries, with_stub.
  destruct (py_eq_str project_type "jupyter-notebook");
    [| destruct (py_eq_str project_type "python")];
    rewrite ?lookup_insert_ne by done; by apply with_data_lookup.
Qed.

Lemma created_entries_notebook (project_type : pyval) (es : gmap string node) :
  created_entries project_type es !! "solution.ipynb"
  = if py_eq_str project_type "jupyter-notebook" then Some notebook_stub
    else es !! "solution.ipynb".
Proof.
  unfold created_entries, with_stub.
  destruct (py_eq_str project_type "jupyter-notebook").
  - by rewrite lookup_insert_eq.
  - destruct (py_eq_str project_type "python");
      rewrite ?lookup_insert_ne by done; by apply with_data_lookup.
Qed.

Lemma created_entries_script (project_type : pyval) (es : gmap string node) :
  created_entries project_type es !! "solution.py"
  = if py_eq_str project_type "jupyter-notebook" then es !! "solution.py"
    else if py_eq_str project_type "python" then Some script_stub
    else es !! "solution.py".
Proof.
  unfold created_entries, with_stub.
  destruct (py_eq_str project_type "jupyter-notebook").
  - rewrite !lookup_insert_ne by done. by apply with_data_lookup.
  - destruct (py_eq_str project_type "python").
    + by rewrite lookup_insert_eq.
    + rewrite !lookup_insert_ne by done. by apply with_data_lookup.
Qed.

(* ===================================================================== *)
(** ** The argument checks *)
(* ===================================================================== *)

Lemma validate_name_never_raises (fname : string) :
  exists v, validate_name fname = Returned v.
Proof. unfold validate_name. destruct (any _); by eauto. Qed.

Lemma any_map_false {A : Type} (f : A -> bool) (l : list A) :
  (forall a, In a l -> f a = false) -> any (map f l) = false.
Proof.
  unfold any. induction l as [|x l IH]; intros H; simpl; [done |].
  rewrite (H x) by (by left). apply IH. intros a Ha. apply H. by right.
Qed.

Lemma any_map_true {A : Type} (f : A -> bool) (l : list A) (a : A) :
  In a l -> f a = true -> any (map f l) = true.
Proof.
  unfold any. induction l as [|x l IH]; intros Hin Ha; simpl; [done |].
  destruct Hin as [-> | Hin]; [by rewrite Ha |].
  rewrite (IH Hin Ha). by destruct (f x).
Qed.

(** A name without a character of [bad_syntax] passes. *)
Lemma validate_name_accepts (fname : string) :
  (forall a, In a (list_ascii_of_string fname) -> letter_in a bad_syntax = false) ->
  validate_name fname = Returned PyNone.
Proof. intros H. unfold validate_name. by rewrite any_map_false. Qed.

(** A name with such a character is found out, and the error is handed
    back as a value. *)
Lemma validate_name_detects (fname : string) (a : ascii) :
  In a (list_ascii_of_string fname) -> letter_in a bad_syntax = true ->
  validate_name fname
  = Returned (PyExc (ArgumentTypeError "Invalid folder name supplied.")).
Proof. intros Hin Ha. unfold validate_name. by rewrite (any_map_true _ _ a). Qed.

(** C1, where the code departs from it: for the name [a.b] the check
    returns the error object where the claim has it fail with the error,
    and the program, whose [--name] option runs no check, goes on and
    creates the directory [/tmp/a.b]. *)
Theorem validate_name_hands_back_the_error :
  validate_name "a.b"
  = Returned (PyExc (ArgumentTypeError "Invalid folder name supplied."))
  /\ let r := program (example_host "posix")
                {| cli_file_path := Some "/tmp"; cli_name := Some "a.b";
                   cli_project_type := Some "python"; cli_verbose := None;
                   cli_cleanup := None; cli_git := None |}
                (start example_fs "/home") in
     r.2 = Returned tt
     /\ is_dir <$> lookup_path ["tmp"; "a.b"] (fs r.1) = Some true.
Proof. split; [reflexivity |]. vm_compute. by split. Qed.

(* ===================================================================== *)
(** ** Teardown *)
(* ===================================================================== *)

(** C2: when the target directory has an entry that is not on the allow
    list, [safe_delete] raises and the directory is still there, with that
    entry; [safe_delete] returns only if every entry was on the list, and
    the directory is then gone. *)
Theorem safe_delete_refuses_unexpected (h : host) (file_path : string) (st : state)
    (es : gmap string node) :
  let d := resolve (flavour_of h) (cwd st) file_path in
  lookup_path d (fs st) = Some (Dir es) ->
  (forall k x, es !! k = Some x -> k ∉ allow_list ->
     exists st' e es',
       safe_delete h file_path st = (st', Raised e)
       /\ lookup_path d (fs st') = Some (Dir es')
       /\ es' !! k = Some x)
  /\ (forall st', safe_delete h file_path st = (st', Returned tt) ->
        (forall k, is_Some (es !! k) -> k ∈ allow_list)
        /\ lookup_path d (fs st') = None).
Proof.
  intros d Hd. pose proof (safe_delete_spec h file_path st es Hd) as H.
  fold d in H. split.
  - intros k x Hk Hnot.
    destruct (safe_delete h file_path st) as [st' [[]|e]].
    + destruct H as [Hall _]. rewrite Hall in Hk by done. done.
    + destruct H as (es' & Hes' & Hsame). exists st', e, es'.
      split; [done |]. split; [done |]. by rewrite Hsame.
  - intros st' Hrun. rewrite Hrun in H. destruct H as [Hall Hgone].
    split; [| done]. intros k [x Hx].
    destruct (decide (k ∈ allow_list)) as [| Hnot]; [done |].
    rewrite Hall in Hx by done. done.
Qed.

Lemma safe_delete_refuses_unexpected_witness :
  exists st' e es',
    safe_delete (example_host "posix") "/tmp/demo" (start example_fs_notes "/home")
    = (st', Raised e)
    /\ lookup_path ["tmp"; "demo"] (fs st') = Some (Dir es')
    /\ es' !! "notes.md" = Some (File (Text "keep")).
Proof.
  apply (proj1 (safe_delete_refuses_unexpected (example_host "posix") "/tmp/demo"
                  (start example_fs_notes "/home")
                  {[ "notes.md" := File (Text "keep") ]} eq_refl)
               "notes.md" (File (Text "keep")) eq_refl).
  compute_done.
Defined.

Lemma safe_delete_frame_witness :
  lookup_path (["tmp"; "demo"] ++ ["notes.md"])
    (fs (safe_delete (example_host "posix") "/tmp/demo"
           (start example_fs_notes "/home")).1)
  = lookup_path (["tmp"; "demo"] ++ ["notes.md"]) example_fs_notes.
Proof.
  apply (safe_delete_frame (example_host "posix") "/tmp/demo"
           (start example_fs_notes "/home") "notes.md" []).
  compute_done.
Defined.

(* ===================================================================== *)
(** ** What a create run writes *)
(* ===================================================================== *)

(** A create run that returns leaves the project directory with the
    entries of [created_entries]. *)
Lemma create_run_entries (h : host) (file_path folder_name : string)
    (project_type git cleanup verbose : pyval) (st st' : state) :
  truthy cleanup = false ->
  main h file_path folder_name project_type git cleanup verbose st = (st', Returned tt) ->
  let d := project_dir h (cwd st) file_path folder_name in
  exists es,
    in_project h d (spawned st ++ create_commands h (render (flavour_of h) d) git)
               (created_entries project_type es) st'.
Proof.
  intros Hc Hrun d. rewrite main_creates in Hrun by done. fold d in Hrun.
  destruct (main_create_returned h d project_type git st st' (fun _ => True))
    as (n & es & _ & _ & Hin); try done.
  - apply project_dir_simple.
  - by exists es.
Qed.

Lemma create_run_lookup (h : host) (file_path folder_name : string)
    (project_type git cleanup verbose : pyval) (st st' : state) :
  truthy cleanup = false ->
  main h file_path folder_name project_type git cleanup verbose st = (st', Returned tt) ->
  let d := project_dir h (cwd st) file_path folder_name in
  exists es, forall k,
    lookup_path (d ++ [k]) (fs st') = created_entries project_type es !! k.
Proof.
  intros Hc Hrun d.
  destruct (create_run_entries _ _ _ _ _ _ _ _ _ Hc Hrun) as (es & _ & _ & Hd).
  exists es. intros k. by apply lookup_path_child.
Qed.

(** C4: after a create run that returns, [requirements.txt] in the
    project directory holds the package list joined by newlines, whatever
    the arguments and the state before: the seven names, one a line, in
    the order of [PACKAGES], none with a version specifier. *)
Theorem requirements_txt_content (h : host) (file_path folder_name : string)
    (project_type git cleanup verbose : pyval) (st st' : state) :
  truthy cleanup = false ->
  main h file_path folder_name project_type git cleanup verbose st = (st', Returned tt) ->
  let text := String.concat newline PACKAGES in
  lookup_path (project_dir h (cwd st) file_path folder_name ++ ["requirements.txt"])
              (fs st')
  = Some (File (Text text))
  /\ lines text
     = ["numpy"; "pandas"; "openpyxl"; "scikit-learn"; "matplotlib"; "seaborn"; "notebook"]
  /\ forallb (fun p => negb (pinned p)) (lines text) = true.
Proof.
  intros Hc Hrun text.
  destruct (create_run_lookup _ _ _ _ _ _ _ _ _ Hc Hrun) as [es Hes].
  split; [| by split].
  rewrite Hes. apply created_entries_requirements.
Qed.

Lemma requirements_txt_content_witness :
  lookup_path (project_dir (example_host "posix") "/home" "/tmp" "demo"
               ++ ["requirements.txt"])
              (fs (example_create (PyStr "python") PyNone example_fs).1)
  = Some (File (Text (String.concat newline PACKAGES)))
  /\ lines (String.concat newline PACKAGES)
     = ["numpy"; "pandas"; "openpyxl"; "scikit-learn"; "matplotlib"; "seaborn"; "notebook"]
  /\ forallb (fun p => negb (pinned p)) (lines (String.concat newline PACKAGES)) = true.
Proof.
  apply (requirements_txt_content (example_host "posix") "/tmp" "demo"
           (PyStr "python") PyNone (PyBool false) (PyBool true)
           (start example_fs "/home")
           (example_create (PyStr "python") PyNone example_fs).1).
  - reflexivity.
  - vm_compute. reflexivity.
Defined.

(** C5: after a create run that returns, [.gitignore] holds the ignore
    patterns joined by newlines, the same for every [project_type]. *)
Theorem gitignore_content (h : host) (file_path folder_name : string)
    (project_type git cleanup verbose : pyval) (st st' : state) :
  truthy cleanup = false ->
  main h file_path folder_name project_type git cleanup verbose st = (st', Returned tt) ->
  lookup_path (project_dir h (cwd st) file_path folder_name ++ [".gitignore"]) (fs st')
  = Some (File (Text (String.concat newline ignore_file_types))).
Proof.
  intros Hc Hrun.
  destruct (create_run_lookup _ _ _ _ _ _ _ _ _ Hc Hrun) as [es Hes].
  rewrite Hes. apply created_entries_gitignore.
Qed.

Lemma gitignore_content_witness :
  lookup_path (project_dir (example_host "posix") "/home" "/tmp" "demo" ++ [".gitignore"])
              (fs (example_create (PyStr "jupyter-notebook") PyNone example_fs).1)
  = Some (File (Text (String.concat newline ignore_file_types))).
Proof.
  apply (gitignore_content (example_host "posix") "/tmp" "demo"
           (PyStr "jupyter-notebook") PyNone (PyBool false) (PyBool true)
           (start example_fs "/home")
           (example_create (PyStr "jupyter-notebook") PyNone example_fs).1).
  - reflexivity.
  - vm_compute. reflexivity.
Defined.

(** C6: a create run for a notebook that returns leaves in
    [solution.ipynb] a notebook of two cells: a markdown cell with the
    source [# Solution Notebook], then a code cell whose two lines import
    numpy and pandas. *)
Theorem notebook_stub_content (h : host) (file_path folder_name : string)
    (git cleanup verbose : pyval) (st st' : state) :
  truthy cleanup = false ->
  main h file_path folder_name (PyStr "jupyter-notebook") git cleanup verbose st
  = (st', Returned tt) ->
  exists code,
    lookup_path (project_dir h (cwd st) file_path folder_name ++ ["solution.ipynb"])
                (fs st')
    = Some (File (NotebookDocument
                    {| nb_cells :=
                         [ {| cell_kind := Markdown; cell_source := "# Solution Notebook" |};
                           {| cell_kind := Code; cell_source := code |} ] |}))
    /\ lines code = ["import numpy as np"; "import pandas as pd"].
Proof.
  intros Hc Hrun.
  destruct (create_run_lookup _ _ _ _ _ _ _ _ _ Hc Hrun) as [es Hes].
  exists ("import numpy as np" +:+ newline +:+ "import pandas as pd").
  split; [| reflexivity].
  rewrite Hes, created_entries_notebook. reflexivity.
Qed.

Lemma notebook_stub_content_witness :
  exists code,
    lookup_path (project_dir (example_host "posix") "/home" "/tmp" "demo"
                 ++ ["solution.ipynb"])
                (fs (example_create (PyStr "jupyter-notebook") PyNone example_fs).1)
    = Some (File (NotebookDocument
                    {| nb_cells :=
                         [ {| cell_kind := Markdown; cell_source := "# Solution Notebook" |};
                           {| cell_kind := Code; cell_source := code |} ] |}))
    /\ lines code = ["import numpy as np"; "import pandas as pd"].
Proof.
  apply (notebook_stub_content (example_host "posix") "/tmp" "demo"
           PyNone (PyBool false) (PyBool true)
           (start example_fs "/home")
           (example_create (PyStr "jupyter-notebook") PyNone example_fs).1).
  - reflexivity.
  - vm_compute. reflexivity.
Defined.

(** C7: a create run for a script that returns leaves in [solution.py] a
    text of two lines, without a newline at its end; the two lines are
    the two lines of the code cell that a create run for a notebook
    writes, the other way round. *)
Theorem script_stub_content (h h' : host) (file_path file_path' folder_name folder_name' : string)
    (git git' cleanup cleanup' verbose verbose' : pyval) (st st1 st' st1' : state) :
  truthy cleanup = false ->
  truthy cleanup' = false ->
  main h file_path folder_name (PyStr "python") git cleanup verbose st
  = (st1, Returned tt) ->
  main h' file_path' folder_name' (PyStr "jupyter-notebook") git' cleanup' verbose' st'
  = (st1', Returned tt) ->
  exists text nb code,
    lookup_path (project_dir h (cwd st) file_path folder_name ++ ["solution.py"])
                (fs st1)
    = Some (File (Text text))
    /\ lookup_path (project_dir h' (cwd st') file_path' folder_name' ++ ["solution.ipynb"])
                   (fs st1')
       = Some (File (NotebookDocument nb))
    /\ code_sources nb = [code]
    /\ Permutation (lines text) (lines code)
    /\ lines text = ["import pandas as pd"; "import numpy as np"].
Proof.
  intros Hc Hc' Hrun Hrun'.
  destruct (create_run_lookup _ _ _ _ _ _ _ _ _ Hc Hrun) as [es Hes].
  destruct (create_run_lookup _ _ _ _ _ _ _ _ _ Hc' Hrun') as [es' Hes'].
  eexists _, _, _. split; [| split; [| split; [| split]]].
  - rewrite Hes, created_entries_script. reflexivity.
  - rewrite Hes', created_entries_notebook. reflexivity.
  - reflexivity.
  - apply perm_swap.
  - reflexivity.
Qed.

Lemma script_stub_content_witness :
  exists text nb code,
    lookup_path (project_dir (example_host "posix") "/home" "/tmp" "demo"
                 ++ ["solution.py"])
                (fs (example_create (PyStr "python") PyNone example_fs).1)
    = Some (File (Text text))
    /\ lookup_path (project_dir (example_host "posix") "/home" "/tmp" "demo"
                    ++ ["solution.ipynb"])
                   (fs (example_create (PyStr "jupyter-notebook") PyNone example_fs).1)
       = Some (File (NotebookDocument nb))
    /\ code_sources nb = [code]
    /\ Permutation (lines text) (lines code)
    /\ lines text = ["import pandas as pd"; "import numpy as np"].
Proof.
  apply (script_stub_content (example_host "posix") (example_host "posix")
           "/tmp" "/tmp" "demo" "demo"
           PyNone PyNone (PyBool false) (PyBool false) (PyBool true) (PyBool true)
           (start example_fs "/home")
           (example_create (PyStr "python") PyNone example_fs).1
           (start example_fs "/home")
           (example_create (PyStr "jupyter-notebook") PyNone example_fs).1).
  - reflexivity.
  - reflexivity.
  - vm_compute. reflexivity.
  - vm_compute. reflexivity.
Defined.

(* ===================================================================== *)
(** ** The spawned commands *)
(* ===================================================================== *)

(** A create run that returns has spawned the commands of
    [create_commands], in their order, and no other. *)
Lemma create_run_commands (h : host) (file_path folder_name : string)
    (project_type git cleanup verbose : pyval) (st st' : state) :
  truthy cleanup = false ->
  main h file_path folder_name project_type git cleanup verbose st = (st', Returned tt) ->
  let full := render (flavour_of h) (project_dir h (cwd st) file_path folder_name) in
  spawned st' = spawned st ++ create_commands h full git.
Proof.
  intros Hc Hrun full.
  by destruct (create_run_entries _ _ _ _ _ _ _ _ _ Hc Hrun) as (es & _ & ? & _).
Qed.

(** On a POSIX host the installer line activates the environment,
    upgrades pip, then installs the packages. *)
Lemma posix_install_line (h : host) (full_fpath : string) :
  os_name h = "posix" ->
  install_commands h full_fpath
  = [Shell ("source '"
            +:+ os_path_join Posix
                  (os_path_join Posix (os_path_join Posix full_fpath ".venv") "bin")
                  "activate"
            +:+ "' &&                        python -m pip install --upgrade pip &&                        pip install numpy pandas openpyxl scikit-learn matplotlib seaborn notebook")].
Proof. intros Hos. unfold install_commands, flavour_of. by rewrite Hos. Qed.

(** On a Windows host it activates the environment and installs the
    packages; there is no step between the two. *)
Lemma nt_install_line (h : host) (full_fpath : string) :
  os_name h = "nt" ->
  install_commands h full_fpath
  = [Shell (os_path_join Nt
              (os_path_join Nt (os_path_join Nt full_fpath ".venv") "Scripts")
              "activate"
            +:+ " && pip install  numpy pandas openpyxl scikit-learn matplotlib seaborn notebook")].
Proof. intros Hos. unfold install_commands, flavour_of. by rewrite Hos. Qed.

(** C8, where the code departs from it: on a Windows host the create run
    for [\tmp\demo] spawns the environment tool and then one shell line
    that activates the environment and installs the packages; pip is not
    upgraded first, as it is on a POSIX host. *)
Theorem windows_install_skips_pip_upgrade :
  spawned (main (example_host "nt") "\tmp" "demo" (PyStr "python") PyNone
                (PyBool false) (PyBool true) (start example_fs "\home")).1
  = [ Argv ["python3"; "-m"; "venv"; ".venv"];
      Shell "\tmp\demo\.venv\Scripts\activate && pip install  numpy pandas openpyxl scikit-learn matplotlib seaborn notebook" ]
  /\ spawned (example_create (PyStr "python") PyNone example_fs).1
     = [ Argv ["python3"; "-m"; "venv"; ".venv"];
         Shell "source '/tmp/demo/.venv/bin/activate' &&                        python -m pip install --upgrade pip &&                        pip install numpy pandas openpyxl scikit-learn matplotlib seaborn notebook" ].
Proof. split; vm_compute; reflexivity. Qed.

(* ===================================================================== *)
(** ** Tools that keep to their entries *)
(* ===================================================================== *)

Lemma tools_confined_keep (h : host) (d : list string) (git : pyval)
    (Φ : gmap string node -> Prop) :
  tools_confined h d git ->
  (forall es es',
     Φ es ->
     (forall k, es' !! k = es !! k
                \/ ((k = ".venv" \/ k = ".git") /\ absent_or_dir (es' !! k))) ->
     Φ es') ->
  forall cmd n,
    cmd ∈ create_commands h (render (flavour_of h) d) git ->
    (exists es, lookup_path d n = Some (Dir es) /\ Φ es) ->
    exists es, lookup_path d (child h cmd (render (flavour_of h) d) n).1 = Some (Dir es)
               /\ Φ es.
Proof.
  intros Htools HΦ cmd n Hcmd (es & Hd & Hes).
  destruct (Htools cmd n es Hcmd Hd) as (es' & Hd' & Hes').
  exists es'. split; [done |]. by apply (HΦ es).
Qed.

Lemma scaffold_only_tools (es es' : gmap string node) :
  scaffold_only es ->
  (forall k, es' !! k = es !! k
             \/ ((k = ".venv" \/ k = ".git") /\ absent_or_dir (es' !! k))) ->
  scaffold_only es'.
Proof.
  intros Hes Hk k x Hx. destruct (Hk k) as [Heq | [Hname Hdir]].
  - apply Hes. by rewrite <- Heq.
  - rewrite Hx in Hdir. simpl in Hdir. left. split; [| done].
    unfold folders_to_remove. destruct Hname as [-> | ->]; set_solver.
Qed.

Lemma created_entries_data (project_type : pyval) (es : gmap string node) :
  created_entries project_type es !! "data" = with_data es !! "data".
Proof.
  unfold created_entries, with_stub.
  destruct (py_eq_str project_type "jupyter-notebook");
    [| destruct (py_eq_str project_type "python")];
    by rewrite !lookup_insert_ne by done.
Qed.

(** "File creations" adds only what [safe_delete] can remove. *)
Lemma scaffold_only_created (project_type : pyval) (es : gmap string node) :
  scaffold_only es -> scaffold_only (created_entries project_type es).
Proof.
  intros Hes k x.
  destruct (decide (k = "data")) as [-> | ?].
  { rewrite created_entries_data. unfold with_data.
    destruct (es !! "data") as [y|] eqn:Hy.
    - rewrite Hy. intros [= <-]. by apply Hes.
    - rewrite lookup_insert_eq. intros [= <-]. left. split; [| done].
      unfold folders_to_remove. set_solver. }
  destruct (decide (k = "requirements.txt")) as [-> | ?].
  { rewrite created_entries_requirements. intros [= <-]. right. split; [| done].
    unfold files_to_remove. set_solver. }
  destruct (decide (k = ".gitignore")) as [-> | ?].
  { rewrite created_entries_gitignore. intros [= <-]. right. split; [| done].
    unfold files_to_remove. set_solver. }
  destruct (decide (k = "solution.ipynb")) as [-> | ?].
  { rewrite created_entries_notebook.
    destruct (py_eq_str project_type "jupyter-notebook"); [| by apply Hes].
    intros [= <-]. right. split; [| done]. unfold files_to_remove. set_solver. }
  destruct (decide (k = "solution.py")) as [-> | ?].
  { rewrite created_entries_script.
    destruct (py_eq_str project_type "jupyter-notebook"); [by apply Hes |].
    destruct (py_eq_str project_type "python"); [| by apply Hes].
    intros [= <-]. right. split; [| done]. unfold files_to_remove. set_solver. }
  rewrite created_entries_other by done. by apply Hes.
Qed.

(** The example host keeps to its entries. *)
Lemma example_host_confined (d : list string) (git : pyval) :
  Forall (fun c => simple_component Posix c = true) d ->
  tools_confined (example_host "posix") d git.
Proof.
  intros Hd cmd n es Hcmd Hn.
  change (flavour_of (example_host "posix")) with Posix in *.
  unfold create_commands in Hcmd.
  rewrite (posix_install_line (example_host "posix")) in Hcmd by done.
  apply elem_of_cons in Hcmd as [-> | Hcmd].
  { simpl. rewrite (resolve_in_cwd Posix d ".venv" Hd eq_refl).
    change (fold_left norm_step (split_sep Posix ".venv") d) with (d ++ [".venv"]).
    eexists. split; [by apply lookup_set_path_parent |].
    intros k. destruct (decide (k = ".venv")) as [-> | Hk].
    - right. split; [by left |]. by rewrite lookup_partial_alter_eq.
    - left. by rewrite lookup_partial_alter_ne. }
  apply elem_of_cons in Hcmd as [-> | Hcmd].
  { simpl. exists es. split; [done |]. by left. }
  destruct (truthy git); [| by apply elem_of_nil in Hcmd].
  apply list_elem_of_singleton in Hcmd as ->.
  simpl. rewrite (resolve_in_cwd Posix d ".git" Hd eq_refl).
  change (fold_left norm_step (split_sep Posix ".git") d) with (d ++ [".git"]).
  eexists. split; [by apply lookup_set_path_parent |].
  intros k. destruct (decide (k = ".git")) as [-> | Hk].
  - right. split; [by right |]. by rewrite lookup_partial_alter_eq.
  - left. by rewrite lookup_partial_alter_ne.
Qed.

(* ===================================================================== *)
(** ** Create, then cleanup *)
(* ===================================================================== *)

(** The example host on [/tmp/demo]. *)
Lemma example_host_confined_demo (git : pyval) :
  tools_confined (example_host "posix")
                 (project_dir (example_host "posix") "/home" "/tmp" "demo") git.
Proof. apply example_host_confined. apply (project_dir_simple (example_host "posix")). Qed.

(** With [/tmp/demo] there before the create run and holding [notes.md],
    the create run returns; the cleanup that follows removes what the
    create run has made and raises at [os.rmdir], the directory and the
    file of the user staying in place. *)
Lemma cleanup_after_create_on_foreign_entry :
  let created := example_create (PyStr "python") PyNone example_fs_notes in
  let cleaned := main (example_host "posix") "/tmp" "demo" (PyStr "python") PyNone
                      (PyBool true) (PyBool true) (start (fs created.1) "/home") in
  created.2 = Returned tt
  /\ cleaned.2 = Raised (OSError "Directory not empty")
  /\ lookup_path ["tmp"; "demo"] (fs cleaned.1)
     = Some (Dir {[ "notes.md" := File (Text "keep") ]}).
Proof. vm_compute. by repeat split. Qed.

(** C3 as it is written fails, even for tools that keep to their entries:
    on the input of [cleanup_after_create_on_foreign_entry] the request is
    valid and the create run returns, and the cleanup raises. *)
Lemma roundtrip_fails_on_foreign_entry : ~ roundtrip_as_stated.
Proof.
  intros H.
  destruct (H (example_host "posix") "/tmp" "demo" (PyStr "python") PyNone (PyBool true)
              example_fs_notes "/home"
              (example_create (PyStr "python") PyNone example_fs_notes).1)
    as (st2 & Hrun & _).
  - split; [| reflexivity]. vm_compute. by eexists.
  - right. by right.
  - apply example_host_confined_demo.
  - vm_compute. reflexivity.
  - vm_compute in Hrun. discriminate Hrun.
Qed.

(** C3, amended: when the project directory is not there before the
    create run, or is there, is not the root, and holds only listed
    folders that are directories and listed files that are regular files,
    and the tools keep to [.venv] and [.git], then the cleanup that follows
    a create run that returned returns as well, and the project directory
    is gone. *)
Theorem create_then_cleanup (h : host) (file_path folder_name : string)
    (project_type git verbose create : pyval)
    (project_type' git' verbose' cleanup : pyval)
    (n : node) (wd : string) (st1 : state) :
  let d := project_dir h wd file_path folder_name in
  truthy create = false ->
  truthy cleanup = true ->
  tools_confined h d git ->
  (lookup_path d n = None
   \/ (d <> [] /\ exists es, lookup_path d n = Some (Dir es) /\ scaffold_only es)) ->
  main h file_path folder_name project_type git create verbose (start n wd)
  = (st1, Returned tt) ->
  exists st2,
    main h file_path folder_name project_type' git' cleanup verbose' (start (fs st1) wd)
    = (st2, Returned tt)
    /\ lookup_path d (fs st2) = None.
Proof.
  intros d Hcreate Hcleanup Htools Hbefore Hrun.
  assert (Hsimple : Forall (fun c => simple_component (flavour_of h) c = true) d)
    by apply project_dir_simple.
  assert (Hne : d <> []).
  { destruct Hbefore as [Hnone | [? _]]; [| done]. intros Hd. by rewrite Hd in Hnone. }
  rewrite main_creates in Hrun by done. simpl in Hrun. fold d in Hrun.
  destruct (main_create_returned h d project_type git (start n wd) st1
              (fun n' => exists es, lookup_path d n' = Some (Dir es) /\ scaffold_only es))
    as (n1 & es1 & (es1' & Hn1 & Hsc) & Hn1' & _ & _ & Hd1); try done.
  - intros _ Hd. exists ∅. split; [done |]. intros k x. by rewrite lookup_empty.
  - simpl. intros es Hes. destruct Hbefore as [Hnone | (_ & es' & Hes' & Hsc)].
    + congruence.
    + by exists es'.
  - intros cmd n'. apply tools_confined_keep; [done |]. apply scaffold_only_tools.
  - rewrite Hn1 in Hn1'. injection Hn1' as ->.
    rewrite main_cleans by done. simpl. fold d. rewrite Hd1.
    destruct (safe_delete_scaffold h (render (flavour_of h) d) (start (fs st1) wd)
                (created_entries project_type es1)) as (st2 & Hrun2 & Hgone).
    + simpl. by rewrite resolve_render.
    + simpl. by rewrite resolve_render.
    + by apply scaffold_only_created.
    + exists st2. split; [done |]. simpl in Hgone.
      by rewrite resolve_render in Hgone.
Qed.

Lemma create_then_cleanup_witness :
  exists st2,
    main (example_host "posix") "/tmp" "demo" PyNone PyNone (PyStr "yes") (PyBool true)
         (start (fs (example_create (PyStr "python") (PyBool true) example_fs).1) "/home")
    = (st2, Returned tt)
    /\ lookup_path (project_dir (example_host "posix") "/home" "/tmp" "demo") (fs st2)
       = None.
Proof.
  apply (create_then_cleanup (example_host "posix") "/tmp" "demo"
           (PyStr "python") (PyBool true) (PyBool true) (PyBool false)
           PyNone PyNone (PyBool true) (PyStr "yes")
           example_fs "/home"
           (example_create (PyStr "python") (PyBool true) example_fs).1).
  - reflexivity.
  - reflexivity.
  - apply example_host_confined_demo.
  - left. vm_compute. reflexivity.
  - vm_compute. reflexivity.
Defined.

(* ===================================================================== *)
(** ** The stub *)
(* ===================================================================== *)

(** Without [--project_type] the create run for [/tmp/demo] returns and
    leaves the two text files and the two folders, and no stub. *)
Lemma create_without_project_type :
  let created := example_create PyNone PyNone example_fs in
  created.2 = Returned tt
  /\ lookup_path ["tmp"; "demo"] (fs created.1)
     = Some (Dir {[ ".venv" := Dir {[ "pyvenv.cfg" := File (Text "") ]};
                    "data" := Dir ∅;
                    "requirements.txt" := requirements_file;
                    ".gitignore" := gitignore_file ]}).
Proof. vm_compute. by split. Qed.

(** C9 as it is written fails: [--project_type] may be left out, and the
    create run then returns with neither stub in the project directory. *)
Lemma no_stub_without_project_type : ~ one_stub_as_stated.
Proof.
  intros H.
  destruct (H (example_host "posix") "/tmp" "demo" PyNone PyNone (PyBool true)
              example_fs "/home"
              (example_create PyNone PyNone example_fs).1)
    as (es & Hd & Hiff).
  - split; [| reflexivity]. vm_compute. by eexists.
  - by left.
  - apply example_host_confined_demo.
  - vm_compute. reflexivity.
  - vm_compute in Hd. injection Hd as <-.
    destruct Hiff as [_ Hone]. destruct Hone as [x Hx].
    + intros [y Hy]. vm_compute in Hy. discriminate Hy.
    + vm_compute in Hx. discriminate Hx.
Qed.

(** C9, amended: when neither stub is in the project directory before and
    the tools keep to [.venv] and [.git], a create run that returns leaves
    [solution.ipynb] and not [solution.py] for the notebook type,
    [solution.py] and not [solution.ipynb] for the script type, and neither
    without a type; [data], [requirements.txt] and [.gitignore] are
    there. *)
Theorem stub_follows_project_type (h : host) (file_path folder_name : string)
    (project_type git cleanup verbose : pyval) (st st' : state) :
  let d := project_dir h (cwd st) file_path folder_name in
  truthy cleanup = false ->
  tools_confined h d git ->
  lookup_path (d ++ ["solution.ipynb"]) (fs st) = None ->
  lookup_path (d ++ ["solution.py"]) (fs st) = None ->
  main h file_path folder_name project_type git cleanup verbose st = (st', Returned tt) ->
  exists es,
    lookup_path d (fs st') = Some (Dir es)
    /\ es !! "solution.ipynb"
       = (if py_eq_str project_type "jupyter-notebook" then Some notebook_stub else None)
    /\ es !! "solution.py"
       = (if py_eq_str project_type "jupyter-notebook" then None
          else if py_eq_str project_type "python" then Some script_stub
          else None)
    /\ is_Some (es !! "data")
    /\ es !! "requirements.txt" = Some requirements_file
    /\ es !! ".gitignore" = Some gitignore_file.
Proof.
  intros d Hc Htools Hnb Hpy Hrun.
  rewrite main_creates in Hrun by done. fold d in Hrun.
  destruct (main_create_returned h d project_type git st st'
              (fun n' => exists es, lookup_path d n' = Some (Dir es)
                                    /\ es !! "solution.ipynb" = None
                                    /\ es !! "solution.py" = None))
    as (n1 & es1 & (es1' & Hn1 & Hnb1 & Hpy1) & Hn1' & _ & _ & Hd1); try done.
  - apply project_dir_simple.
  - intros _ Hd. exists ∅. by rewrite !lookup_empty.
  - intros es Hes. exists es.
    by rewrite <- !(lookup_path_child d _ (fs st) es Hes).
  - intros cmd n'. apply tools_confined_keep; [done |].
    intros es es' [Hes1 Hes2] Hk. split.
    + destruct (Hk "solution.ipynb") as [-> | [[? | ?] _]]; done.
    + destruct (Hk "solution.py") as [-> | [[? | ?] _]]; done.
  - rewrite Hn1 in Hn1'. injection Hn1' as ->.
    exists (created_entries project_type es1). split; [done |].
    rewrite created_entries_notebook, created_entries_script, created_entries_data,
      created_entries_requirements, created_entries_gitignore, Hnb1, Hpy1.
    split; [by destruct (py_eq_str project_type "jupyter-notebook") |].
    split; [by destruct (py_eq_str project_type "jupyter-notebook"),
                        (py_eq_str project_type "python") |].
    split; [apply with_data_data | done].
Qed.

Lemma stub_follows_project_type_witness :
  exists es,
    lookup_path (project_dir (example_host "posix") "/home" "/tmp" "demo")
                (fs (example_create (PyStr "python") PyNone example_fs).1)
    = Some (Dir es)
    /\ es !! "solution.ipynb" = None
    /\ es !! "solution.py" = Some script_stub
    /\ is_Some (es !! "data")
    /\ es !! "requirements.txt" = Some requirements_file
    /\ es !! ".gitignore" = Some gitignore_file.
Proof.
  apply (stub_follows_project_type (example_host "posix") "/tmp" "demo"
           (PyStr "python") PyNone (PyBool false) (PyBool true)
           (start example_fs "/home")
           (example_create (PyStr "python") PyNone example_fs).1).
  - reflexivity.
  - apply example_host_confined_demo.
  - vm_compute. reflexivity.
  - vm_compute. reflexivity.
  - vm_compute. reflexivity.
Defined.

(* ===================================================================== *)
(** ** The command line *)
(* ===================================================================== *)

(** What [parse_args] hands to [main] when it returns. *)
Lemma parse_args_returned (h : host) (a : cli) (st st' : state) (args : namespace) :
  parse_args h a st = (st', Returned args) ->
  st' = st
  /\ cli_file_path a = Some (ns_file_path args)
  /\ is_Some (lookup_path (resolve (flavour_of h) (cwd st) (ns_file_path args)) (fs st))
  /\ cli_name a = Some (ns_name args)
  /\ ns_project_type args = from_option PyStr PyNone (cli_project_type a)
  /\ ns_cleanup args = from_option PyStr (PyBool false) (cli_cleanup a)
  /\ ns_git args
     = from_option (fun s => PyBool (negb (s =? "")%string)) PyNone (cli_git a).
Proof.
  unfold parse_args.
  destruct (cli_file_path a) as [f|]; [| done].
  destruct (cli_name a) as [n|]; [| done].
  unfold bind, argparse_type, verify_directory, bind, os_path_exists.
  destruct (lookup_path (resolve (flavour_of h) (cwd st) f) (fs st)) as [x|] eqn:Hf;
    [| done].
  cbn beta iota.
  destruct (cli_project_type a) as [t|].
  - destruct (existsb (String.eqb t) project_type_choices); [| done].
    intros [= <- <-]. simpl. rewrite Hf. by eauto 10.
  - intros [= <- <-]. simpl. rewrite Hf. by eauto 10.
Qed.


(** X2. [--cleanup] is stored as text, and any text that is not empty
    counts as true: with [--cleanup False] too the program tears the
    project directory down, or fails because it is missing, and never
    takes the create path. *)
Theorem cleanup_flag_counts_any_text (h : host) (a : cli) (st : state)
    (args : namespace) (s : string) :
  parse_args h a st = (st, Returned args) ->
  cli_cleanup a = Some s ->
  s <> "" ->
  let d := project_dir h (cwd st) (ns_file_path args) (ns_name args) in
  program h a st
  = match lookup_path d (fs st) with
    | Some _ => safe_delete h (render (flavour_of h) d) st
    | None => (st, Raised (ArgumentTypeError "Invalid file path supplied."))
    end.
Proof.
  intros Hparse Hs Hne d.
  destruct (parse_args_returned _ _ _ _ _ Hparse) as (_ & _ & _ & _ & _ & Hcl & _).
  unfold program, bind. rewrite Hparse.
  apply main_cleans. rewrite Hcl, Hs. simpl.
  by destruct (String.eqb_spec s "").
Qed.

Lemma cleanup_flag_counts_any_text_witness :
  program (example_host "posix") (example_cli (Some "False") None)
          (start example_fs_notes "/home")
  = safe_delete (example_host "posix") "/tmp/demo" (start example_fs_notes "/home").
Proof.
  apply (cleanup_flag_counts_any_text (example_host "posix")
           (example_cli (Some "False") None) (start example_fs_notes "/home")
           {| ns_file_path := "/tmp"; ns_name := "demo";
              ns_project_type := PyStr "python"; ns_verbose := PyBool true;
              ns_cleanup := PyStr "False"; ns_git := PyNone |}
           "False").
  - vm_compute. reflexivity.
  - reflexivity.
  - discriminate.
Defined.

(** X3. [--git] goes through [bool], which is true of any text that is not
    empty: with [--git False] too a create run that returns has run
    [git init], as the last of its commands. *)
Theorem git_flag_counts_any_text (h : host) (a : cli) (st st' : state)
    (args : namespace) (s : string) :
  parse_args h a st = (st, Returned args) ->
  cli_git a = Some s ->
  s <> "" ->
  cli_cleanup a = None ->
  program h a st = (st', Returned tt) ->
  let full := render (flavour_of h)
                (project_dir h (cwd st) (ns_file_path args) (ns_name args)) in
  spawned st' = spawned st ++ venv_command h :: install_commands h full ++ [git_command].
Proof.
  intros Hparse Hs Hne Hnone Hrun full.
  destruct (parse_args_returned _ _ _ _ _ Hparse) as (_ & _ & _ & _ & _ & Hcl & Hgit).
  unfold program, bind in Hrun. rewrite Hparse in Hrun.
  rewrite Hcl, Hnone, Hgit, Hs in Hrun. simpl in Hrun.
  apply create_run_commands in Hrun; [| done]. rewrite Hrun.
  unfold create_commands. simpl.
  by destruct (String.eqb_spec s "").
Qed.

Lemma git_flag_counts_any_text_witness :
  spawned (program (example_host "posix") (example_cli None (Some "False"))
                   (start example_fs "/home")).1
  = [] ++ venv_command (example_host "posix")
       :: install_commands (example_host "posix") "/tmp/demo" ++ [git_command].
Proof.
  apply (git_flag_counts_any_text (example_host "posix")
           (example_cli None (Some "False")) (start example_fs "/home")
           (program (example_host "posix") (example_cli None (Some "False"))
                    (start example_fs "/home")).1
           {| ns_file_path := "/tmp"; ns_name := "demo";
              ns_project_type := PyStr "python"; ns_verbose := PyBool true;
              ns_cleanup := PyBool false; ns_git := PyBool true |}
           "False").
  - vm_compute. reflexivity.
  - reflexivity.
  - discriminate.
  - reflexivity.
  - vm_compute. reflexivity.
Defined.

(* ===================================================================== *)
(** ** More on teardown *)
(* ===================================================================== *)

(** X4. Cleanup of a project directory that is not there fails with the
    error of [verify_directory]; nothing is changed or spawned, and the
    create path is not taken in its place. *)
Theorem cleanup_of_missing_directory (h : host) (file_path folder_name : string)
    (project_type git cleanup verbose : pyval) (st : state) :
  truthy cleanup = true ->
  lookup_path (project_dir h (cwd st) file_path folder_name) (fs st) = None ->
  main h file_path folder_name project_type git cleanup verbose st
  = (st, Raised (ArgumentTypeError "Invalid file path supplied.")).
Proof. intros Hc Hd. rewrite main_cleans by done. simpl. by rewrite Hd. Qed.

Lemma cleanup_of_missing_directory_witness :
  main (example_host "posix") "/tmp" "demo" PyNone PyNone (PyStr "yes") (PyBool true)
       (start example_fs "/home")
  = (start example_fs "/home", Raised (ArgumentTypeError "Invalid file path supplied.")).
Proof.
  apply (cleanup_of_missing_directory (example_host "posix") "/tmp" "demo"
           PyNone PyNone (PyStr "yes") (PyBool true) (start example_fs "/home")).
  - reflexivity.
  - vm_compute. reflexivity.
Defined.

(** A loop whose rounds return at once, raise at once, or take one step
    that keeps [J], keeps [J]. *)
Lemma hoare_for_each_rounds {A : Type} (J : state -> Prop) (l : list A)
    (body : A -> M unit) (step : A -> state -> state) :
  (forall k st, k ∈ l -> J st ->
     body k st = (st, Returned tt)
     \/ (exists e, body k st = (st, Raised e))
     \/ (body k st = (step k st, Returned tt) /\ J (step k st))) ->
  hoare J (for_each l body) (fun _ => J) (fun _ => J).
Proof.
  intros Hbody. apply hoare_for_each. intros k Hk st HJ.
  by destruct (Hbody k st Hk HJ) as [-> | [[e ->] | [-> ?]]].
Qed.

(** [safe_delete] spawns nothing and stays where it is. *)
Lemma safe_delete_process_state (h : host) (file_path : string) (st : state) :
  cwd (safe_delete h file_path st).1 = cwd st
  /\ spawned (safe_delete h file_path st).1 = spawned st.
Proof.
  set (J := fun st' : state => cwd st' = cwd st /\ spawned st' = spawned st).
  set (d := resolve (flavour_of h) (cwd st) file_path).
  assert (H : hoare J (safe_delete h file_path) (fun _ => J) (fun _ => J)).
  { unfold safe_delete.
    apply hoare_bind with (R := fun _ => J).
    { apply hoare_for_each_rounds
        with (step := fun k st' => set_fs st' (set_path (d ++ [k]) None (fs st'))).
      intros k st1 Hk [Hwd Hsp].
      destruct (folder_round_cases h file_path k st1 Hk) as [H | [H | H]];
        [by left | by right; left |].
      right. right. rewrite Hwd in H. by split. }
    intros []. apply hoare_bind with (R := fun _ => J).
    { apply hoare_for_each_rounds
        with (step := fun k st' => set_fs st' (set_path (d ++ [k]) None (fs st'))).
      intros k st1 Hk [Hwd Hsp].
      destruct (file_round_cases h file_path k st1 Hk) as [H | [H | H]];
        [by left | by right; left |].
      right. right. rewrite Hwd in H. by split. }
    intros [] st1 HJ.
    by destruct (os_rmdir_cases (flavour_of h) file_path st1) as [[e ->] | (-> & _)]. }
  specialize (H st (conj eq_refl eq_refl)).
  by destruct (safe_delete h file_path st) as [st' [[]|e]].
Qed.

(** X5. A cleanup run spawns no process and does not change the current
    directory, whether it returns or raises. *)
Theorem cleanup_spawns_nothing (h : host) (file_path folder_name : string)
    (project_type git cleanup verbose : pyval) (st : state) :
  truthy cleanup = true ->
  let st' := (main h file_path folder_name project_type git cleanup verbose st).1 in
  spawned st' = spawned st /\ cwd st' = cwd st.
Proof.
  intros Hc. rewrite main_cleans by done. simpl.
  destruct (lookup_path _ (fs st)); [| done].
  by destruct (safe_delete_process_state h
                 (render (flavour_of h) (project_dir h (cwd st) file_path folder_name)) st).
Qed.

Lemma cleanup_spawns_nothing_witness :
  let st' := (main (example_host "posix") "/tmp" "demo" PyNone PyNone (PyStr "yes")
                   (PyBool true) (start example_fs_notes "/home")).1 in
  spawned st' = [] /\ cwd st' = "/home".
Proof.
  apply (cleanup_spawns_nothing (example_host "posix") "/tmp" "demo"
           PyNone PyNone (PyStr "yes") (PyBool true) (start example_fs_notes "/home")).
  reflexivity.
Defined.

Lemma bind_run {A B : Type} (m : M A) (k : A -> M B) (st : state) :
  bind m k st
  = match m st with
    | (st', Returned a) => k a st'
    | (st', Raised e) => (st', Raised e)
    end.
Proof. reflexivity. Qed.

Lemma for_each_skips {A : Type} (l : list A) (body : A -> M unit) (st : state) :
  (forall k, k ∈ l -> body k st = (st, Returned tt)) ->
  for_each l body st = (st, Returned tt).
Proof.
  induction l as [|x l IH]; intros H; simpl; [done |].
  unfold bind. rewrite H by (apply elem_of_cons; by left).
  apply IH. intros k Hk. apply H, elem_of_cons. by right.
Qed.

(** Where the target is no directory the loops find nothing, and
    [safe_delete] is its last line. *)
Lemma safe_delete_no_dir (h : host) (file_path : string) (st : state) :
  (forall es, lookup_path (resolve (flavour_of h) (cwd st) file_path) (fs st)
              <> Some (Dir es)) ->
  safe_delete h file_path st = os_rmdir (flavour_of h) file_path st.
Proof.
  intros Hd. unfold safe_delete.
  rewrite bind_run, (for_each_skips folders_to_remove).
  2: { intros k Hk. cbv beta.
       rewrite remove_folder_round by (apply allow_list_simple, elem_of_app; by left).
       by rewrite lookup_path_no_dir. }
  rewrite bind_run, (for_each_skips files_to_remove).
  2: { intros k Hk. cbv beta.
       rewrite remove_file_round by (apply allow_list_simple, elem_of_app; by right).
       by rewrite lookup_path_no_dir. }
  done.
Qed.

(** X8. [verify_directory] asks whether the path exists, not whether it is
    a directory: cleanup of a project path that is a regular file gets past
    it, removes nothing, and fails at [os.rmdir] with the file in place. *)
Theorem cleanup_of_regular_file (h : host) (file_path folder_name : string)
    (project_type git cleanup verbose : pyval) (st : state) (c : content) :
  truthy cleanup = true ->
  lookup_path (project_dir h (cwd st) file_path folder_name) (fs st) = Some (File c) ->
  main h file_path folder_name project_type git cleanup verbose st
  = (st, Raised NotADirectoryError).
Proof.
  intros Hc Hd. rewrite main_cleans by done. simpl. rewrite Hd.
  assert (Hres : resolve (flavour_of h) (cwd st)
                   (render (flavour_of h) (project_dir h (cwd st) file_path folder_name))
                 = project_dir h (cwd st) file_path folder_name)
    by apply resolve_render, project_dir_simple.
  rewrite safe_delete_no_dir by (rewrite Hres, Hd; done).
  unfold os_rmdir. by rewrite Hres, Hd.
Qed.

Lemma cleanup_of_regular_file_witness :
  main (example_host "posix") "/tmp" "demo" PyNone PyNone (PyStr "yes") (PyBool true)
       (start example_fs_file "/home")
  = (start example_fs_file "/home", Raised NotADirectoryError).
Proof.
  apply (cleanup_of_regular_file (example_host "posix") "/tmp" "demo"
           PyNone PyNone (PyStr "yes") (PyBool true) (start example_fs_file "/home")
           (Text "")).
  - reflexivity.
  - vm_compute. reflexivity.
Defined.




Lemma lookup_set_path_apart (p q : list string) (v : option node) (n : node) :
  apart p q -> lookup_path q (set_path p v n) = lookup_path q n.
Proof.
  intros (c & a & b & r & r' & -> & -> & Hab). revert n.
  induction c as [|x c IH]; intros n.
  - destruct n as [f|es]; [done |]. simpl.
    by rewrite lookup_partial_alter_ne.
  - destruct n as [f|es]; [done |].
    change ((x :: c) ++ a :: r) with (x :: (c ++ a :: r)).
    rewrite set_path_cons by (by destruct c).
    simpl. rewrite lookup_partial_alter_eq.
    destruct (es !! x) as [y|]; simpl; [apply IH | done].
Qed.

Lemma apart_below (p q l : list string) : apart p q -> apart (p ++ l) q.
Proof.
  intros (c & a & b & r & r' & -> & -> & Hab).
  exists c, a, b, (r ++ l), r'. by rewrite <- app_assoc.
Qed.

(** X7. [safe_delete] is local: a path that parts ways with the target
    directory, such as a sibling of it, names the same after
    [safe_delete] as before, whether [safe_delete] returns or raises. *)
Theorem safe_delete_outside (h : host) (file_path : string) (st : state)
    (q : list string) :
  apart (resolve (flavour_of h) (cwd st) file_path) q ->
  lookup_path q (fs (safe_delete h file_path st).1) = lookup_path q (fs st).
Proof.
  set (d := resolve (flavour_of h) (cwd st) file_path). intros Hq.
  set (I := fun n : node => lookup_path q n = lookup_path q (fs st)).
  assert (H : hoare (fun st' => cwd st' = cwd st /\ I (fs st'))
                (safe_delete h file_path)
                (fun _ st' => I (fs st')) (fun _ st' => I (fs st'))).
  { apply (safe_delete_removals h file_path (cwd st)) with (I := I).
    - intros k n Hk Hn. unfold I. fold d.
      rewrite lookup_set_path_apart by (by apply apart_below). exact Hn.
    - intros st1 [Hwd Hn].
      destruct (os_rmdir_cases (flavour_of h) file_path st1)
        as [[e ->] | (-> & _)]; [done |].
      rewrite Hwd. fold d. simpl. unfold I.
      by rewrite lookup_set_path_apart.
    - by intros e st1 [_ Hn]. }
  specialize (H st (conj eq_refl eq_refl)).
  by destruct (safe_delete h file_path st) as [st' [[]|e]].
Qed.

Lemma safe_delete_outside_witness :
  lookup_path ["home"]
    (fs (safe_delete (example_host "posix") "/tmp/demo"
           (start example_fs_notes "/home")).1)
  = lookup_path ["home"] example_fs_notes.
Proof.
  apply (safe_delete_outside (example_host "posix") "/tmp/demo"
           (start example_fs_notes "/home") ["home"]).
  exists [], "tmp", "home", ["demo"], []. by repeat split.
Defined.

(* ===================================================================== *)
(** ** More on the create path *)
(* ===================================================================== *)



(** X10. A create run on a project directory that is there keeps what it
    finds: every entry other than [.venv], [.git] and the five names it
    writes is as before; [data] is kept as it is when present, and made
    an empty directory when not; a stub of the other type is left in
    place.  The tools are taken to keep to [.venv] and [.git]. *)
Theorem create_keeps_other_entries (h : host) (file_path folder_name : string)
    (project_type git cleanup verbose : pyval) (st st' : state)
    (es : gmap string node) :
  let d := project_dir h (cwd st) file_path folder_name in
  truthy cleanup = false ->
  tools_confined h d git ->
  lookup_path d (fs st) = Some (Dir es) ->
  main h file_path folder_name project_type git cleanup verbose st = (st', Returned tt) ->
  exists es',
    lookup_path d (fs st') = Some (Dir es')
    /\ (forall k, k ∉ [".venv"; ".git"; "data"; "requirements.txt"; ".gitignore";
                      "solution.ipynb"; "solution.py"] ->
                  es' !! k = es !! k)
    /\ es' !! "data" = Some (default (Dir ∅) (es !! "data"))
    /\ es' !! "solution.ipynb"
       = (if py_eq_str project_type "jupyter-notebook" then Some notebook_stub
          else es !! "solution.ipynb")
    /\ es' !! "solution.py"
       = (if py_eq_str project_type "jupyter-notebook" then es !! "solution.py"
          else if py_eq_str project_type "python" then Some script_stub
          else es !! "solution.py").
Proof.
  intros d Hc Htools Hd Hrun.
  rewrite main_creates in Hrun by done. fold d in Hrun.
  destruct (main_create_returned h d project_type git st st'
              (fun n' => exists e1, lookup_path d n' = Some (Dir e1)
                 /\ forall k, k <> ".venv" -> k <> ".git" -> e1 !! k = es !! k))
    as (n1 & es1 & (e1 & Hn1 & Hsame) & Hn1' & _ & _ & Hd1); try done.
  - apply project_dir_simple.
  - intros Hnone. congruence.
  - intros es0 Hes0. exists es. split; [done |]. done.
  - intros cmd n'. apply tools_confined_keep; [done |].
    intros e2 e3 He2 Hk k Hv Hg. destruct (Hk k) as [-> | [[? | ?] _]]; [| done | done].
    by apply He2.
  - rewrite Hn1 in Hn1'. injection Hn1' as ->.
    exists (created_entries project_type es1). split; [done |].
    split; [| split; [| split]].
    + intros k Hk. rewrite created_entries_other by set_solver.
      apply Hsame; set_solver.
    + rewrite created_entries_data. unfold with_data.
      rewrite <- (Hsame "data") by done.
      destruct (es1 !! "data") as [x|] eqn:Hx; [by rewrite Hx |].
      by rewrite lookup_insert_eq.
    + rewrite created_entries_notebook, (Hsame "solution.ipynb") by done. done.
    + rewrite created_entries_script, (Hsame "solution.py") by done. done.
Qed.

Lemma create_keeps_other_entries_witness :
  exists es',
    lookup_path (project_dir (example_host "posix") "/home" "/tmp" "demo")
                (fs (example_create (PyStr "python") PyNone example_fs_notes).1)
    = Some (Dir es')
    /\ (forall k, k ∉ [".venv"; ".git"; "data"; "requirements.txt"; ".gitignore";
                      "solution.ipynb"; "solution.py"] ->
                  es' !! k = ({[ "notes.md" := File (Text "keep") ]} : gmap string node) !! k)
    /\ es' !! "data"
       = Some (default (Dir ∅)
                 (({[ "notes.md" := File (Text "keep") ]} : gmap string node) !! "data"))
    /\ es' !! "solution.ipynb"
       = (if py_eq_str (PyStr "python") "jupyter-notebook" then Some notebook_stub
          else ({[ "notes.md" := File (Text "keep") ]} : gmap string node)
               !! "solution.ipynb")
    /\ es' !! "solution.py"
       = (if py_eq_str (PyStr "python") "jupyter-notebook"
          then ({[ "notes.md" := File (Text "keep") ]} : gmap string node) !! "solution.py"
          else if py_eq_str (PyStr "python") "python" then Some script_stub
          else ({[ "notes.md" := File (Text "keep") ]} : gmap string node)
               !! "solution.py").
Proof.
  apply (create_keeps_other_entries (example_host "posix") "/tmp" "demo"
           (PyStr "python") PyNone (PyBool false) (PyBool true)
           (start example_fs_notes "/home")
           (example_create (PyStr "python") PyNone example_fs_notes).1
           {[ "notes.md" := File (Text "keep") ]}).
  - reflexivity.
  - apply example_host_confined_demo.
  - vm_compute. reflexivity.
  - vm_compute. reflexivity.
Defined.

(** X12. Where the project path cannot be made a directory, because a
    regular file has its name or because there is no directory to hold
    it, the create run raises at [os.chdir] or [os.mkdir] before anything
    is changed or spawned. *)
Theorem create_blocked_early (h : host) (file_path folder_name : string)
    (project_type git cleanup verbose : pyval) (st : state) :
  truthy cleanup = false ->
  blocked (project_dir h (cwd st) file_path folder_name) (fs st) ->
  exists e,
    main h file_path folder_name project_type git cleanup verbose st = (st, Raised e)
    /\ (e = NotADirectoryError \/ e = FileNotFoundError).
Proof.
  intros Hc Hblocked. rewrite main_creates by done.
  set (d := project_dir h (cwd st) file_path folder_name) in *.
  assert (Hres : forall wd, resolve (flavour_of h) wd (render (flavour_of h) d) = d)
    by (intros wd; apply resolve_render, project_dir_simple).
  unfold main_create, main_environment_setup.
  rewrite !bind_run. unfold os_path_exists at 1. rewrite Hres.
  destruct Hblocked as [[c Hd] | [Hd Hpar]].
  - rewrite Hd. cbn beta iota. unfold negb, ret at 1.
    rewrite bind_run. cbn beta iota. rewrite bind_run.
    unfold os_chdir at 1. rewrite Hres, Hd. by eauto.
  - rewrite Hd. cbn beta iota. unfold negb.
    rewrite bind_run. unfold os_mkdir at 1. rewrite Hres, Hd.
    destruct (lookup_path (removelast d) (fs st)) as [[c|es]|] eqn:Hp;
      [by eauto | | by eauto].
    by destruct (Hpar es).
Qed.

Lemma create_blocked_early_witness :
  exists e,
    main (example_host "posix") "/tmp" "demo" (PyStr "python") PyNone (PyBool false)
         (PyBool true) (start example_fs_file "/home")
    = (start example_fs_file "/home", Raised e)
    /\ (e = NotADirectoryError \/ e = FileNotFoundError).
Proof.
  apply (create_blocked_early (example_host "posix") "/tmp" "demo"
           (PyStr "python") PyNone (PyBool false) (PyBool true)
           (start example_fs_file "/home")).
  - reflexivity.
  - left. exists (Text ""). vm_compute. reflexivity.
Defined.

(* ===================================================================== *)
(** ** Names and the project directory *)
(* ===================================================================== *)







Lemma resolve_join_relative (fl : flavour) (wd a b : string) :
  startswith_sep fl b = false ->
  resolve fl wd (os_path_join fl a b)
  = fold_left norm_step (split_sep fl b) (resolve fl wd a).
Proof.
  intros Hb. destruct (startswith_sep fl a) eqn:Ha.
  - assert (Hj : startswith_sep fl (os_path_join fl a b) = true).
    { rewrite startswith_join by done. destruct a; [done |]. exact Ha. }
    unfold resolve. rewrite Ha, Hj. unfold normalize.
    by rewrite fold_norm_step_join.
  - assert (Hj : startswith_sep fl (os_path_join fl a b) = false).
    { rewrite startswith_join by done. destruct a; [done |]. exact Ha. }
    rewrite (resolve_relative fl wd _ Hj), (resolve_relative fl wd _ Ha).
    by rewrite fold_norm_step_join.
Qed.

(** X14. The empty name passes [validate_name], and with it the project
    directory is the base directory itself: a create run fills the base
    directory, and a cleanup run is [safe_delete] on it. *)
Theorem empty_name_is_base_directory (h : host) (wd file_path : string) :
  validate_name "" = Returned PyNone
  /\ project_dir h wd file_path "" = resolve (flavour_of h) wd file_path.
Proof.
  split; [reflexivity |]. unfold project_dir.
  by rewrite resolve_join_relative.
Qed.

(* ===================================================================== *)
(** ** Create runs that return *)
(* ===================================================================== *)


Section EnvironmentSetupReturns.
Variables (h : host) (d : list string) (git : pyval) (st0 : state).
Variable T : node -> Prop.
Let fl : flavour := flavour_of h.
Let full : string := render fl d.
Hypothesis Hsimple : Forall (fun c => simple_component fl c = true) d.
(* [T] says that the project directory is there, *)
Hypothesis Hdir : forall n, T n -> exists es, lookup_path d n = Some (Dir es).
(* it holds of the directory found or of the one that can be made, *)
Hypothesis Henter :
  (is_Some (lookup_path d (fs st0)) /\ T (fs st0))
  \/ (lookup_path d (fs st0) = None
      /\ (exists es, lookup_path (removelast d) (fs st0) = Some (Dir es))
      /\ T (set_path d (Some (Dir ∅)) (fs st0))).
(* and every tool starts and keeps it. *)
Hypothesis Htools :
  forall cmd n, cmd ∈ create_commands h full git -> T n ->
    T (child h cmd full n).1 /\ (child h cmd full n).2 = Returned tt.

End EnvironmentSetupReturns.

Section FileCreationsReturns.
Variables (h : host) (d : list string) (sp : list command).
Let fl : flavour := flavour_of h.
Hypothesis Hsimple : Forall (fun c => simple_component fl c = true) d.


End FileCreationsReturns.









